(** * Group study rooms: the session logic of components/GroupStudy.tsx

    The component keeps one Firestore document per room in the collection
    [group_sessions], keyed by the room code.  Its handlers
    ([handleCreateRoom], [handleJoinRoom], [handleLeaveRoom],
    [handleSendChatMessage], [handleGenerateNotes]) are embedded below as
    functions on an explicit pair of the document store and the React state
    of one mounted component; a world of several mounted components with
    snapshot delivery is built on top of them. *)

From Stdlib Require Import ZArith Ascii String List Bool Lia.
From stdpp Require Import base option list gmap strings pretty.

Local Open Scope Z_scope.

(** ** The JavaScript primitives the component relies on *)

Module Js.

(** [String.prototype.toUpperCase] for the letters a to z; every other byte
    is kept, so the result is that of JavaScript on strings whose other
    characters have no upper-case form (digits, hyphens, white space). *)
Definition upper_ascii (c : ascii) : ascii :=
  let n := N_of_ascii c in
  if ((97 <=? n) && (n <=? 122))%N then ascii_of_N (n - 32) else c.

Fixpoint toUpperCase (s : string) : string :=
  match s with
  | EmptyString => EmptyString
  | String c r => String (upper_ascii c) (toUpperCase r)
  end.

(** White space and line terminators as [String.prototype.trim] sees them,
    on the UTF-8 encoding of the string.  In one byte: TAB, LF, VT, FF, CR
    and SPACE. *)
Definition is_space (c : ascii) : bool :=
  let n := N_of_ascii c in
  (((9 <=? n) && (n <=? 13)) || (n =? 32))%N.

(** In two bytes: U+00A0 (C2 A0). *)
Definition is_space2 (c d : ascii) : bool :=
  ((N_of_ascii c =? 194) && (N_of_ascii d =? 160))%N.

(** In three bytes: U+1680 (E1 9A 80), U+2000 to U+200A (E2 80 80 to
    E2 80 8A), U+2028 and U+2029 (E2 80 A8, E2 80 A9), U+202F (E2 80 AF),
    U+205F (E2 81 9F), U+3000 (E3 80 80) and U+FEFF (EF BB BF). *)
Definition is_space3 (c d e : ascii) : bool :=
  let x := N_of_ascii c in
  let y := N_of_ascii d in
  let z := N_of_ascii e in
  (((x =? 225) && (y =? 154) && (z =? 128))
   || ((x =? 226) && (y =? 128)
       && (((128 <=? z) && (z <=? 138)) || (z =? 168) || (z =? 169) || (z =? 175)))
   || ((x =? 226) && (y =? 129) && (z =? 159))
   || ((x =? 227) && (y =? 128) && (z =? 128))
   || ((x =? 239) && (y =? 187) && (z =? 191)))%N.

Fixpoint trimStart (s : string) : string :=
  match s with
  | EmptyString => EmptyString
  | String c r =>
      if is_space c then trimStart r
      else
        match r with
        | String d r1 =>
            if is_space2 c d then trimStart r1
            else
              match r1 with
              | String e r2 => if is_space3 c d e then trimStart r2 else s
              | EmptyString => s
              end
        | EmptyString => s
        end
  end.

(** A string is cut where nothing but white space follows. *)
Fixpoint trimEnd (s : string) : string :=
  match s with
  | EmptyString => EmptyString
  | String c r =>
      match trimStart s with
      | EmptyString => EmptyString
      | _ => String c (trimEnd r)
      end
  end.

Definition trim (s : string) : string := trimEnd (trimStart s).

(** Truthiness of a string: every string but the empty one. *)
Definition truthy (s : string) : bool :=
  match s with EmptyString => false | _ => true end.

(** A finite non-negative binary64 number, [mant * 2 ^ expo]. *)
Record double := Double { mant : Z; expo : Z }.

(** What [Math.random()] can return: a binary64 number in [0, 1). *)
Definition in_unit_interval (r : double) : Prop :=
  0 <= mant r < 2 ^ 53 /\ expo r < 0 /\ mant r < 2 ^ (- expo r).

(** [m / 2 ^ s], rounded to nearest with ties to even. *)
Definition round_nearest_even (m s : Z) : Z :=
  let q := m / 2 ^ s in
  let r := m mod 2 ^ s in
  let half := 2 ^ (s - 1) in
  if (half <? r) || ((r =? half) && Z.odd q) then q + 1 else q.

(** The product [r * n] of a double and a small positive integer, as
    binary64 multiplication computes it: the exact product rounded to 53
    significant bits. *)
Definition mul_int (r : double) (n : Z) : double :=
  let m := mant r * n in
  let s := Z.log2 m - 52 in
  if s <=? 0 then Double m (expo r)
  else Double (round_nearest_even m s) (expo r + s).

(** [Math.floor] of a non-negative double. *)
Definition Math_floor (x : double) : Z :=
  if 0 <=? expo x then mant x * 2 ^ expo x else mant x / 2 ^ (- expo x).

(** An integer inside a template literal. *)
Definition Number_toString (n : Z) : string := pretty n.

(** Reading [arr[i]] inside a template literal: an index outside the array
    reads [undefined], which prints as such. *)
Definition index_toString (arr : list string) (i : Z) : string :=
  if i <? 0 then "undefined"
  else match arr !! Z.to_nat i with
       | Some w => w
       | None => "undefined"
       end.

End Js.

(** ** Room codes *)

Definition word1 : list string :=
  ["HAPPY"; "LAZY"; "BRIGHT"; "QUICK"; "SILENT"; "SPARK"].
Definition word2 : list string :=
  ["FOX"; "CUP"; "TREE"; "RIVER"; "STONE"; "CLOUD"].

(** The room code for three already floored draws. *)
Definition roomCodeOf (i j n : Z) : string :=
  Js.index_toString word1 i +:+ "-" +:+ Js.index_toString word2 j
    +:+ "-" +:+ Js.Number_toString (n + 10).

(** [generateRoomCode]; [r1], [r2], [r3] are the three results of
    [Math.random()], in evaluation order. *)
Definition generateRoomCode (r1 r2 r3 : Js.double) : string :=
  roomCodeOf
    (Js.Math_floor (Js.mul_int r1 (Z.of_nat (length word1))))
    (Js.Math_floor (Js.mul_int r2 (Z.of_nat (length word2))))
    (Js.Math_floor (Js.mul_int r3 90)).

(** ** Regular expressions, to state the format of room codes *)

Module Regex.

Inductive re :=
| Empty
| Eps
| Class (p : ascii -> bool)
| Seq (a b : re)
| Alt (a b : re)
| Star (a : re).

Definition Plus (a : re) : re := Seq a (Star a).

Fixpoint nullable (r : re) : bool :=
  match r with
  | Empty => false
  | Eps => true
  | Class _ => false
  | Seq a b => nullable a && nullable b
  | Alt a b => nullable a || nullable b
  | Star _ => true
  end.

Fixpoint deriv (c : ascii) (r : re) : re :=
  match r with
  | Empty => Empty
  | Eps => Empty
  | Class p => if p c then Eps else Empty
  | Seq a b =>
      if nullable a then Alt (Seq (deriv c a) b) (deriv c b)
      else Seq (deriv c a) b
  | Alt a b => Alt (deriv c a) (deriv c b)
  | Star a => Seq (deriv c a) (Star a)
  end.

(** Whole-string match, as with [^...$]. *)
Fixpoint matches (r : re) (s : string) : bool :=
  match s with
  | EmptyString => nullable r
  | String c s' => matches (deriv c r) s'
  end.

Definition upper : re :=
  Class (fun c => let n := N_of_ascii c in ((65 <=? n) && (n <=? 90))%N).
Definition digit : re :=
  Class (fun c => let n := N_of_ascii c in ((48 <=? n) && (n <=? 57))%N).
Definition hyphen : re := Class (fun c => (N_of_ascii c =? 45)%N).

(** [^[A-Z]+-[A-Z]+-\d{2}$] *)
Definition room_code_format : re :=
  Seq (Plus upper) (Seq hyphen (Seq (Plus upper) (Seq hyphen (Seq digit digit)))).

End Regex.

(** ** The session document and the values stored in it (types.ts) *)

(** [User] of firebase/auth: [displayName] and [photoURL] may be null. *)
Record User := mkUser {
  user_uid : string;
  displayName : option string;
  user_photoURL : option string
}.

(** [a || dflt] on a string that may be null. *)
Definition orElse (a : option string) (dflt : string) : string :=
  match a with
  | Some s => if Js.truthy s then s else dflt
  | None => dflt
  end.

Record Participant := mkParticipant {
  uid : string;
  name : string;
  photoURL : string
}.

Global Instance Participant_eq_dec : EqDecision Participant.
Proof. solve_decision. Defined.

Record Permission := mkPermission { canShare : bool }.

Record GroupChatMessage := mkChat {
  msg_id : string;
  senderId : string;
  senderName : string;
  text : string;
  timestamp : Z
}.

Global Instance GroupChatMessage_eq_dec : EqDecision GroupChatMessage.
Proof. solve_decision. Defined.

Record Flashcard := mkFlashcard { question : string; answer : string }.

Record GroupQuizState := mkQuiz {
  flashcards : list Flashcard;
  currentQuestionIndex : Z;
  scores : gmap string Z;
  isComplete : bool;
  quizMasterId : string;
  answered : gmap string bool;
  isRevealed : bool
}.

(** What [JSON.parse] returns.  An object keeps its members in source
    order; a later member with the same key shadows an earlier one. *)
#[warnings="-register-all"]
Inductive Json :=
| JNull
| JBool (b : bool)
| JNum (z : Z)
| JStr (s : string)
| JArr (items : list Json)
| JObj (members : list (string * Json)).

Fixpoint Json_eqb (a b : Json) : bool :=
  match a, b with
  | JNull, JNull => true
  | JBool x, JBool y => Bool.eqb x y
  | JNum x, JNum y => x =? y
  | JStr x, JStr y => String.eqb x y
  | JArr xs, JArr ys =>
      (fix go (xs ys : list Json) : bool :=
         match xs, ys with
         | [], [] => true
         | x :: xs', y :: ys' => Json_eqb x y && go xs' ys'
         | _, _ => false
         end) xs ys
  | JObj xs, JObj ys =>
      (fix go (xs ys : list (string * Json)) : bool :=
         match xs, ys with
         | [], [] => true
         | (k, x) :: xs', (l, y) :: ys' =>
             String.eqb k l && Json_eqb x y && go xs' ys'
         | _, _ => false
         end) xs ys
  | _, _ => false
  end.

(** JavaScript truthiness of a parsed value. *)
Definition Json_truthy (j : Json) : bool :=
  match j with
  | JNull => false
  | JBool b => b
  | JNum z => negb (z =? 0)
  | JStr s => Js.truthy s
  | JArr _ | JObj _ => true
  end.

(** Own member [k] of an object: the last one of that name. *)
Fixpoint member (k : string) (ms : list (string * Json)) : option Json :=
  match ms with
  | [] => None
  | (l, v) :: rest =>
      match member k rest with
      | Some w => Some w
      | None => if String.eqb k l then Some v else None
      end
  end.

Inductive Thrown (A : Type) :=
| Threw
| Returned (a : A).
Arguments Threw {A}.
Arguments Returned {A} a.

(** [j.notes]: a TypeError on null, [undefined] ([None]) where the value has
    no such property. *)
Definition get_notes (j : Json) : Thrown (option Json) :=
  match j with
  | JNull => Threw
  | JObj ms => Returned (member "notes" ms)
  | _ => Returned None
  end.

(** [v || []] *)
Definition or_empty_array (v : option Json) : Json :=
  match v with
  | Some j => if Json_truthy j then j else JArr []
  | None => JArr []
  end.

Record SharedNoteBlock := mkNote {
  note_id : string;
  authorId : string;
  authorName : string;
  notes : Json
}.

Definition SharedNoteBlock_eqb (a b : SharedNoteBlock) : bool :=
  String.eqb (note_id a) (note_id b) && String.eqb (authorId a) (authorId b)
  && String.eqb (authorName a) (authorName b) && Json_eqb (notes a) (notes b).

(** The document stored under [group_sessions/<code>].  Every document of
    the collection is written by [handleCreateRoom], which sets all eight
    fields, and the later updates keep them. *)
Record SessionDoc := mkSession {
  hostId : string;
  participants : list Participant;
  chatMessages : list GroupChatMessage;
  sharedNotes : list SharedNoteBlock;
  sharedFlashcards : list Flashcard;
  quizState : option GroupQuizState;
  permissions : gmap string Permission;
  createdAt : Z
}.

Definition set_hostId (h : string) (d : SessionDoc) : SessionDoc :=
  mkSession h (participants d) (chatMessages d) (sharedNotes d)
    (sharedFlashcards d) (quizState d) (permissions d) (createdAt d).
Definition set_participants (ps : list Participant) (d : SessionDoc) : SessionDoc :=
  mkSession (hostId d) ps (chatMessages d) (sharedNotes d)
    (sharedFlashcards d) (quizState d) (permissions d) (createdAt d).
Definition set_chatMessages (ms : list GroupChatMessage) (d : SessionDoc) : SessionDoc :=
  mkSession (hostId d) (participants d) ms (sharedNotes d)
    (sharedFlashcards d) (quizState d) (permissions d) (createdAt d).
Definition set_sharedNotes (ns : list SharedNoteBlock) (d : SessionDoc) : SessionDoc :=
  mkSession (hostId d) (participants d) (chatMessages d) ns
    (sharedFlashcards d) (quizState d) (permissions d) (createdAt d).
Definition set_permissions (pm : gmap string Permission) (d : SessionDoc) : SessionDoc :=
  mkSession (hostId d) (participants d) (chatMessages d) (sharedNotes d)
    (sharedFlashcards d) (quizState d) pm (createdAt d).

(** ** The Firestore calls of the component *)

Inductive StoreCall :=
| CallSetDoc (code : string)
| CallGetDoc (code : string)
| CallUpdateDoc (code : string)
| CallBatchDelete (code : string)
| CallOnSnapshot (code : string)
| CallUnsubscribe (code : string).

(** The collection [group_sessions], and the calls made on it so far. *)
Record Backend := mkBackend {
  docs : gmap string SessionDoc;
  calls : list StoreCall
}.

Definition called (c : StoreCall) (b : Backend) : Backend :=
  mkBackend (docs b) (calls b ++ [c]).

(** [setDoc(ref, data)]: writes the document, replacing whatever is there. *)
Definition setDoc (code : string) (d : SessionDoc) (b : Backend) : Backend :=
  called (CallSetDoc code) (mkBackend (<[code := d]> (docs b)) (calls b)).

(** [getDoc(ref)]; [None] is a snapshot whose [exists()] is false. *)
Definition getDoc (code : string) (b : Backend) : option SessionDoc * Backend :=
  (docs b !! code, called (CallGetDoc code) b).

(** [updateDoc(ref, fields)]: rejects ([false]) when there is no document. *)
Definition updateDoc (code : string) (f : SessionDoc -> SessionDoc) (b : Backend)
  : bool * Backend :=
  match docs b !! code with
  | Some d => (true, called (CallUpdateDoc code) (mkBackend (<[code := f d]> (docs b)) (calls b)))
  | None => (false, called (CallUpdateDoc code) b)
  end.

(** A write batch holding the single operation [delete(ref)], committed. *)
Definition batchDelete (code : string) (b : Backend) : Backend :=
  called (CallBatchDelete code) (mkBackend (delete code (docs b)) (calls b)).

(** [arrayUnion(x)] applied to the stored array: [x] is added unless an
    equal element is there. *)
Definition arrayUnion {A : Type} (eqb : A -> A -> bool) (l : list A) (x : A) : list A :=
  if existsb (eqb x) l then l else l ++ [x].

Definition Participant_eqb (p q : Participant) : bool := bool_decide (p = q).
Definition GroupChatMessage_eqb (p q : GroupChatMessage) : bool := bool_decide (p = q).

(** ** The state of one mounted component *)

(** The [useState] cells the handlers touch, the ref [unsubscribeRef], and
    [listeners]: the codes of the documents on which an [onSnapshot] listener
    registered by this component is still live. *)
Record Component := mkComponent {
  roomCode : string;
  inputRoomCode : string;
  sessionData : option SessionDoc;
  chatInput : string;
  notesInput : string;
  isLoading : bool;
  error : option string;
  unsubscribeRef : option string;
  listeners : list string
}.

Definition initialComponent : Component :=
  mkComponent "" "" None "" "" false None None [].

Definition setRoomCode (v : string) (c : Component) : Component :=
  mkComponent v (inputRoomCode c) (sessionData c) (chatInput c) (notesInput c)
    (isLoading c) (error c) (unsubscribeRef c) (listeners c).
Definition setInputRoomCode (v : string) (c : Component) : Component :=
  mkComponent (roomCode c) v (sessionData c) (chatInput c) (notesInput c)
    (isLoading c) (error c) (unsubscribeRef c) (listeners c).
Definition setSessionData (v : option SessionDoc) (c : Component) : Component :=
  mkComponent (roomCode c) (inputRoomCode c) v (chatInput c) (notesInput c)
    (isLoading c) (error c) (unsubscribeRef c) (listeners c).
Definition setChatInput (v : string) (c : Component) : Component :=
  mkComponent (roomCode c) (inputRoomCode c) (sessionData c) v (notesInput c)
    (isLoading c) (error c) (unsubscribeRef c) (listeners c).
Definition setNotesInput (v : string) (c : Component) : Component :=
  mkComponent (roomCode c) (inputRoomCode c) (sessionData c) (chatInput c) v
    (isLoading c) (error c) (unsubscribeRef c) (listeners c).
Definition setIsLoading (v : bool) (c : Component) : Component :=
  mkComponent (roomCode c) (inputRoomCode c) (sessionData c) (chatInput c)
    (notesInput c) v (error c) (unsubscribeRef c) (listeners c).
Definition setError (v : option string) (c : Component) : Component :=
  mkComponent (roomCode c) (inputRoomCode c) (sessionData c) (chatInput c)
    (notesInput c) (isLoading c) v (unsubscribeRef c) (listeners c).
Definition setSubscription (r : option string) (ls : list string) (c : Component)
  : Component :=
  mkComponent (roomCode c) (inputRoomCode c) (sessionData c) (chatInput c)
    (notesInput c) (isLoading c) (error c) r ls.

(** The values destructured from [sessionData || {}], with their defaults. *)
Definition view_participants (c : Component) : list Participant :=
  match sessionData c with Some d => participants d | None => [] end.
Definition view_hostId (c : Component) : string :=
  match sessionData c with Some d => hostId d | None => "" end.
Definition view_permissions (c : Component) : gmap string Permission :=
  match sessionData c with Some d => permissions d | None => ∅ end.

Definition isHost (u : User) (c : Component) : bool :=
  String.eqb (user_uid u) (view_hostId c).

(** [permissions[user.uid] || { canShare: false }] *)
Definition myPermissions (u : User) (c : Component) : Permission :=
  default (mkPermission false) (view_permissions c !! user_uid u).

(** The store and the component a handler runs against. *)
Record St := mkSt {
  backend : Backend;
  comp : Component
}.

(** ** The handlers *)

Definition newParticipant (u : User) : Participant :=
  mkParticipant (user_uid u) (orElse (displayName u) "Anonymous")
    (orElse (user_photoURL u) "").

(** [now] is the value of [new Date()]. *)
Definition initialSessionData (u : User) (now : Z) : SessionDoc :=
  mkSession (user_uid u) [newParticipant u] [] [] [] None
    {[ user_uid u := mkPermission true ]} now.

(** Cancels the first live listener on [code]. *)
Fixpoint cancel (code : string) (ls : list string) : list string :=
  match ls with
  | [] => []
  | l :: rest => if String.eqb code l then rest else l :: cancel code rest
  end.

(** [subscribeToSession]: registers a listener and keeps its cancel function
    in the ref, over whatever the ref held. *)
Definition subscribeToSession (code : string) (st : St) : St :=
  mkSt (called (CallOnSnapshot code) (backend st))
       (setSubscription (Some code) (listeners (comp st) ++ [code]) (comp st)).

(** [handleCreateRoom]; [r1 r2 r3] are the draws of [generateRoomCode].  The
    store is taken to accept the write, so the [catch] branch is not
    entered. *)
Definition handleCreateRoom (u : User) (r1 r2 r3 : Js.double) (now : Z) (st : St) : St :=
  let code := generateRoomCode r1 r2 r3 in
  let b := setDoc code (initialSessionData u now) (backend st) in
  subscribeToSession code (mkSt b (setRoomCode code (comp st))).

(** The fields [handleJoinRoom] passes to [updateDoc]: [snap] is the
    document read by [getDoc], [cur] the stored document the update is
    applied to. *)
Definition joinFields (u : User) (snap cur : SessionDoc) : SessionDoc :=
  set_permissions (<[ user_uid u := mkPermission false ]> (permissions snap))
    (set_participants
       (arrayUnion Participant_eqb (participants cur) (newParticipant u)) cur).

(** [handleJoinRoom].  The code is taken as the id of the document, as it
    is for every code [generateRoomCode] makes; a code with a slash in it,
    which [doc] refuses or reads as a longer path, is not modelled. *)
Definition handleJoinRoom (u : User) (st : St) : St :=
  let c := comp st in
  let code := Js.toUpperCase (Js.trim (inputRoomCode c)) in
  if negb (Js.truthy code) then
    mkSt (backend st) (setError (Some "Please enter a room code.") c)
  else
    let '(docSnap, b1) := getDoc code (backend st) in
    match docSnap with
    | Some snap =>
        match updateDoc code (joinFields u snap) b1 with
        | (true, b2) => subscribeToSession code (mkSt b2 (setRoomCode code c))
        | (false, b2) => mkSt b2 (setError (Some "Failed to join room.") c)
        end
    | None => mkSt b1 (setError (Some "Room not found.") c)
    end.

(** The three updates of [handleLeaveRoom], applied to the stored document. *)
Definition transferHostFields (newHostId : string) (newParticipants : list Participant)
    (cur : SessionDoc) : SessionDoc :=
  set_permissions (<[ newHostId := mkPermission true ]> (permissions cur))
    (set_participants newParticipants (set_hostId newHostId cur)).

Definition removeSelfFields (u : User) (newParticipants : list Participant)
    (cur : SessionDoc) : SessionDoc :=
  set_permissions (delete (user_uid u) (permissions cur))
    (set_participants newParticipants cur).

Definition handleLeaveRoom (u : User) (st : St) : St :=
  let c := comp st in
  if negb (Js.truthy (roomCode c)) || negb (bool_decide (is_Some (sessionData c)))
  then st
  else
    let '(b0, c0) :=
      match unsubscribeRef c with
      | Some code =>
          (called (CallUnsubscribe code) (backend st),
           setSubscription None (cancel code (listeners c)) c)
      | None => (backend st, c)
      end in
    let newParticipants :=
      filter (fun p => uid p <> user_uid u) (view_participants c) in
    let b1 :=
      if isHost u c && (0 <? Z.of_nat (length newParticipants)) then
        match head newParticipants with
        | Some p0 =>
            snd (updateDoc (roomCode c)
                   (transferHostFields (uid p0) newParticipants) b0)
        | None => b0
        end
      else if Z.of_nat (length newParticipants) =? 0 then
        batchDelete (roomCode c) b0
      else
        snd (updateDoc (roomCode c) (removeSelfFields u newParticipants) b0) in
    mkSt b1 (setSessionData None (setInputRoomCode "" (setRoomCode "" c0))).

(** [handleSendChatMessage]; [uuid] is [crypto.randomUUID()], [now] is
    [Date.now()].  The rejection of [updateDoc] is not caught here; the
    message is then not stored and the input is kept. *)
Definition handleSendChatMessage (u : User) (uuid : string) (now : Z) (st : St) : St :=
  let c := comp st in
  if negb (Js.truthy (Js.trim (chatInput c))) || negb (Js.truthy (roomCode c)) then st
  else
    let message :=
      mkChat uuid (user_uid u) (orElse (displayName u) "Anonymous") (chatInput c) now in
    match updateDoc (roomCode c)
            (fun cur => set_chatMessages
                          (arrayUnion GroupChatMessage_eqb (chatMessages cur) message) cur)
            (backend st) with
    | (true, b) => mkSt b (setChatInput "" c)
    | (false, b) => mkSt b c
    end.

(** What the generative model answers to [generateContent]: the request
    fails, or it yields a text on which [JSON.parse] throws or returns. *)
Inductive OracleReply :=
| RequestFailed
| ReplyText (parsed : Thrown Json).

(** A member of a parsed object that a later member of the same name
    replaces. *)
Definition shadowed {A : Type} (k : string) (later : list (string * A)) : bool :=
  existsb (fun kv => String.eqb k kv.1) later.

(** Names no field of a stored map may bear: the empty name, which the SDK
    refuses, and a name that begins and ends with two underscores, which
    is reserved. *)
Definition reserved_key (k : string) : bool :=
  (4 <=? String.length k)%nat && String.prefix "__" k
  && String.eqb (String.substring (String.length k - 2) 2 k) "__".

Definition valid_key (k : string) : bool :=
  Js.truthy k && negb (reserved_key k).

(** The values [updateDoc] takes inside a document: no array directly
    inside an array, and no map with a field name that is not valid.
    [inArray] tells whether the value is an element of an array.  The limits
    of the store on the size and the depth of a document are left out. *)
Fixpoint writable (inArray : bool) (j : Json) : bool :=
  match j with
  | JArr items =>
      negb inArray
      && (fix all (l : list Json) : bool :=
            match l with
            | [] => true
            | x :: l' => writable true x && all l'
            end) items
  | JObj members =>
      (fix all (l : list (string * Json)) : bool :=
         match l with
         | [] => true
         | (k, v) :: l' =>
             (shadowed k l' || (valid_key k && writable false v)) && all l'
         end) members
  | _ => true
  end.

(** [updateDoc] of one field to [arrayUnion(x)]: when [x] holds a value that
    cannot be written the call throws or is rejected, and nothing is
    stored. *)
Definition updateDocUnion (accepted : bool) (code : string)
    (f : SessionDoc -> SessionDoc) (b : Backend) : bool * Backend :=
  if accepted then updateDoc code f b else (false, called (CallUpdateDoc code) b).

(** The [catch] and [finally] blocks of [handleGenerateNotes]. *)
Definition generationFailed (b : Backend) (c : Component) : St :=
  mkSt b (setIsLoading false (setError (Some "Failed to generate notes from AI.") c)).

(** [handleGenerateNotes]; [uuid] is [crypto.randomUUID()].  [doc] throws on
    an empty document id, and [updateDoc] on a note block it cannot write;
    both are caught. *)
Definition handleGenerateNotes (u : User) (reply : OracleReply) (uuid : string) (st : St)
  : St :=
  let c := comp st in
  if negb (Js.truthy (Js.trim (notesInput c))) then st
  else
    let c1 := setError None (setIsLoading true c) in
    match reply with
    | RequestFailed => generationFailed (backend st) c1
    | ReplyText Threw => generationFailed (backend st) c1
    | ReplyText (Returned parsedNotes) =>
        match get_notes parsedNotes with
        | Threw => generationFailed (backend st) c1
        | Returned v =>
            let newNoteBlock :=
              mkNote uuid (user_uid u) (orElse (displayName u) "Anonymous")
                (or_empty_array v) in
            if negb (Js.truthy (roomCode c)) then generationFailed (backend st) c1
            else
              match updateDocUnion (writable false (notes newNoteBlock)) (roomCode c)
                      (fun cur => set_sharedNotes
                                    (arrayUnion SharedNoteBlock_eqb (sharedNotes cur)
                                       newNoteBlock) cur)
                      (backend st) with
              | (true, b) => mkSt b (setIsLoading false (setNotesInput "" c1))
              | (false, b) => generationFailed b c1
              end
        end
    end.

(** ** Several components on one store *)

(** The listener of [subscribeToSession], run on the current state of the
    document.  When the document is gone it also calls [handleLeaveRoom]:
    the one of the render in which the room was created or joined, where
    [roomCode] is still [''], so that call returns at once. *)
Definition onSnapshotCallback (ds : gmap string SessionDoc) (code : string)
    (c : Component) : Component :=
  match ds !! code with
  | Some d => setSessionData (Some d) c
  | None => setError (Some "The session has ended.") c
  end.

(** Every live listener of a component fires. *)
Definition deliver (ds : gmap string SessionDoc) (c : Component) : Component :=
  fold_left (fun c' code => onSnapshotCallback ds code c') (listeners c) c.

Record Client := mkClient {
  who : User;
  ui : Component
}.

Record World := mkWorld {
  store : Backend;
  clients : list Client
}.

(** What a user can do with a mounted component: press "Create Room", type a
    code and press "Join Room", press "Leave Room", or reload the page. *)
Inductive Action :=
| Create (r1 r2 r3 : Js.double) (now : Z)
| Join (typed : string)
| Leave
| Reload.

(** The cleanup of the mount effect, followed by a fresh mount. *)
Definition remount (st : St) : St :=
  match unsubscribeRef (comp st) with
  | Some code => mkSt (called (CallUnsubscribe code) (backend st)) initialComponent
  | None => mkSt (backend st) initialComponent
  end.

(** The lobby, with its two buttons, is rendered while [roomCode] is empty,
    and the room with its "Leave Room" button otherwise. *)
Definition perform (u : User) (a : Action) (st : St) : St :=
  let lobby := negb (Js.truthy (roomCode (comp st))) in
  match a with
  | Create r1 r2 r3 now =>
      if lobby then handleCreateRoom u r1 r2 r3 now st else st
  | Join typed =>
      if lobby then
        handleJoinRoom u
          (mkSt (backend st) (setInputRoomCode (Js.toUpperCase typed) (comp st)))
      else st
  | Leave => if lobby then st else handleLeaveRoom u st
  | Reload => remount st
  end.

(** Client [i] acts, and the store then notifies the listeners. *)
Definition act (i : nat) (a : Action) (w : World) : World :=
  match clients w !! i with
  | Some cl =>
      let st := perform (who cl) a (mkSt (store w) (ui cl)) in
      mkWorld (backend st)
        (map (fun k => mkClient (who k) (deliver (docs (backend st)) (ui k)))
           (<[ i := mkClient (who cl) (comp st) ]> (clients w)))
  | None => w
  end.

Definition run (trace : list (nat * Action)) (w : World) : World :=
  fold_left (fun w' ia => act (fst ia) (snd ia) w') trace w.

(** Every user has the page open, and no room exists. *)
Definition boot (users : list User) : World :=
  mkWorld (mkBackend ∅ []) (map (fun u => mkClient u initialComponent) users).

(** The ids of a roster. *)
Definition ids (ps : list Participant) : gset string := list_to_set (map uid ps).

(** ** Predicates used in the statements *)

(** A word of [word1], a word of [word2] and a number from 10 to 99, joined
    by hyphens. *)
Definition code_shape (code : string) : Prop :=
  exists w1 w2 n,
    w1 ∈ word1 /\ w2 ∈ word2 /\ 10 <= n <= 99
    /\ code = w1 +:+ "-" +:+ w2 +:+ "-" +:+ Js.Number_toString n.

(** The host is on the roster. *)
Definition host_is_member (d : SessionDoc) : Prop :=
  exists p, p ∈ participants d /\ uid p = hostId d.

(** How many entries of a roster carry the id [k]. *)
Definition entries_of (k : string) (ps : list Participant) : nat :=
  length (filter (fun p => uid p = k) ps).

(** The state a handler of client [i] runs against. *)
Definition stOf (i : nat) (w : World) : option St :=
  match clients w !! i with
  | Some cl => Some (mkSt (store w) (ui cl))
  | None => None
  end.

(** What every stored session is shown to satisfy: the host is on the
    roster, no roster entry is repeated, and everyone on the roster has a
    permissions entry. *)
Definition doc_ok (d : SessionDoc) : Prop :=
  host_is_member d
  /\ NoDup (participants d)
  /\ forall p, p ∈ participants d -> is_Some (permissions d !! uid p).

(** A component shows the lobby and listens to nothing, or shows a room,
    listens to its document and holds a snapshot of it. *)
Definition in_lobby (c : Component) : Prop :=
  roomCode c = "" /\ sessionData c = None
  /\ listeners c = [] /\ unsubscribeRef c = None.

Definition in_room (c : Component) : Prop :=
  roomCode c <> "" /\ listeners c = [roomCode c]
  /\ unsubscribeRef c = Some (roomCode c).

(** Before the listeners have fired. *)
Definition client_pre (ds : gmap string SessionDoc) (c : Component) : Prop :=
  in_lobby c
  \/ (in_room c /\ (is_Some (sessionData c) \/ is_Some (ds !! roomCode c))).

(** After they have: the snapshot is the stored document, if there is one. *)
Definition client_ok (ds : gmap string SessionDoc) (c : Component) : Prop :=
  in_lobby c
  \/ (in_room c
      /\ exists s, sessionData c = Some s
                   /\ forall d, ds !! roomCode c = Some d -> s = d).

Definition world_ok (w : World) : Prop :=
  (forall code d, docs (store w) !! code = Some d -> doc_ok d)
  /\ Forall (fun cl => client_ok (docs (store w)) (ui cl)) (clients w).

(** ** Sample users, draws and texts *)

(** A text given by the bytes of its UTF-8 encoding. *)
Definition utf8 (bytes : list N) : string :=
  fold_right (fun n r => String (ascii_of_N n) r) EmptyString bytes.

(** U+00A0, U+2028, U+FEFF, which are white space; U+200B and the letter
    U+00E0, which are not. *)
Definition nbsp : string := utf8 [194; 160]%N.
Definition line_separator : string := utf8 [226; 128; 168]%N.
Definition byte_order_mark : string := utf8 [239; 187; 191]%N.
Definition zero_width_space : string := utf8 [226; 128; 139]%N.
Definition a_grave : string := utf8 [195; 160]%N.


Definition alice : User := mkUser "alice" (Some "Alice") None.
Definition bob : User := mkUser "bob" (Some "Bob") None.
Definition carol : User := mkUser "carol" None None.

(** The draws [0] and [0.5]. *)
Definition draw_zero : Js.double := Js.Double 0 (-1).
Definition draw_half : Js.double := Js.Double 1 (-1).

(** The state client [i] acts on, for writing examples. *)
Definition stAt (i : nat) (w : World) : St :=
  default (mkSt (store w) initialComponent) (stOf i w).

(** The snapshot a component holds. *)
Definition snapshotOf (st : St) : SessionDoc :=
  default (initialSessionData alice 0) (sessionData (comp st)).

(** Alice opens HAPPY-RIVER-55; bob and carol join it. *)
Definition room_of_three : World :=
  run [(0%nat, Create draw_zero draw_half draw_half 1000);
       (1%nat, Join "happy-river-55");
       (2%nat, Join " Happy-River-55 ")]
    (boot [alice; bob; carol]).

(** Alice opens HAPPY-FOX-10 and bob joins it. *)
Definition room_of_two : World :=
  run [(0%nat, Create draw_zero draw_zero draw_zero 1000);
       (1%nat, Join "happy-fox-10")]
    (boot [alice; bob]).

(** Bob, in the room of two, has typed a text to make notes from. *)
Definition bob_with_notes : St :=
  mkSt (store room_of_two) (setNotesInput "photosynthesis" (comp (stAt 1 room_of_two))).

(** A notes value as the response schema asks for it: a list of strings. *)
Definition schema_notes (j : Json) : bool :=
  match j with
  | JArr items =>
      forallb (fun x => match x with JStr _ => true | _ => false end) items
  | _ => false
  end.

(** A list with an array among its elements. *)
Definition has_array_element (items : list Json) : bool :=
  existsb (fun x => match x with JArr _ => true | _ => false end) items.

(** ** Predicates on traces and fields *)

(** The draws of a "Create Room" press are results of [Math.random()]. *)
Definition draws_valid (a : Action) : Prop :=
  match a with
  | Create r1 r2 r3 _ =>
      Js.in_unit_interval r1 /\ Js.in_unit_interval r2 /\ Js.in_unit_interval r3
  | _ => True
  end.

(** Two documents that differ at most in their shared notes, and at most in
    their chat. *)
Definition same_but_notes (d d' : SessionDoc) : Prop :=
  hostId d' = hostId d /\ participants d' = participants d
  /\ chatMessages d' = chatMessages d /\ sharedFlashcards d' = sharedFlashcards d
  /\ quizState d' = quizState d /\ permissions d' = permissions d
  /\ createdAt d' = createdAt d.

Definition same_but_chat (d d' : SessionDoc) : Prop :=
  hostId d' = hostId d /\ participants d' = participants d
  /\ sharedNotes d' = sharedNotes d /\ sharedFlashcards d' = sharedFlashcards d
  /\ quizState d' = quizState d /\ permissions d' = permissions d
  /\ createdAt d' = createdAt d.

(** The choices of the generator, and the table that maps each room code
    to a choice producing it. *)
Definition room_code_choices : list (Z * Z * Z) :=
  i ← seqZ 0 6; j ← seqZ 0 6; n ← seqZ 0 90; [(i, j, n)].

Definition room_code_table : gmap string (Z * Z * Z) :=
  list_to_map (map (fun t => (roomCodeOf t.1.1 t.1.2 t.2, t)) room_code_choices).

(** Carol, outside the room of two, has typed its code. *)
Definition carol_at_door : St :=
  mkSt (store room_of_two) (setInputRoomCode "happy-fox-10" initialComponent).

(** Bob, in the room of two, has typed a chat message. *)
Definition bob_with_chat : St :=
  mkSt (store room_of_two) (setChatInput " hello " (comp (stAt 1 room_of_two))).

(** * Properties *)

(** ** The model on sample inputs *)

Example generateRoomCode_lowest :
  generateRoomCode draw_zero draw_zero draw_zero = "HAPPY-FOX-10".
Proof. vm_compute. reflexivity. Qed.

(** The largest double below 1 gives the last words and 99. *)
Example generateRoomCode_highest :
  let top := Js.Double (2 ^ 53 - 1) (-53) in
  generateRoomCode top top top = "SPARK-CLOUD-99".
Proof. vm_compute. reflexivity. Qed.

(** A product that is rounded: the exact product of
    [7505999378950826 * 2^-53] and 6 lies below 5, and binary64 rounds it to
    5, so the index read is 5. *)
Example generateRoomCode_rounded :
  Js.Math_floor (Js.mul_int (Js.Double 7505999378950826 (-53)) 6) = 5
  /\ (7505999378950826 * 6) / 2 ^ 53 = 4.
Proof. vm_compute. auto. Qed.

Example room_code_format_samples :
  Regex.matches Regex.room_code_format "SPARK-CLOUD-99" = true
  /\ Regex.matches Regex.room_code_format "SPARK-CLOUD-9" = false
  /\ Regex.matches Regex.room_code_format "SPARK-CLOUD-100" = false
  /\ Regex.matches Regex.room_code_format "spark-CLOUD-99" = false
  /\ Regex.matches Regex.room_code_format "-CLOUD-99" = false.
Proof. vm_compute. auto 6. Qed.

Example trim_toUpperCase_sample :
  Js.toUpperCase (Js.trim "  Happy-River-55 ") = "HAPPY-RIVER-55"
  /\ Js.trim "   " = "" /\ Js.trim " a b " = "a b".
Proof. vm_compute. auto. Qed.

Example trim_unicode_samples :
  Js.trim nbsp = ""
  /\ Js.trim (line_separator +:+ " a" +:+ nbsp +:+ "b " +:+ byte_order_mark) = "a" +:+ nbsp +:+ "b"
  /\ Js.trim (" " +:+ a_grave +:+ " ") = a_grave
  /\ Js.trim ("a" +:+ zero_width_space) = "a" +:+ zero_width_space.
Proof. vm_compute. auto. Qed.

(** A chat input and a notes input of U+00A0 alone are blank. *)
Example blank_inputs_unicode :
  let st := mkSt (store room_of_two)
              (setNotesInput nbsp (setChatInput nbsp (comp (stAt 1 room_of_two)))) in
  handleSendChatMessage bob "uuid-1" 2000 st = st
  /\ handleGenerateNotes bob (ReplyText (Returned (JObj []))) "uuid-1" st = st.
Proof. vm_compute. auto. Qed.

Example writable_samples :
  writable false (JArr [JStr "a"; JNum 1; JNull]) = true
  /\ writable false (JArr [JArr [JStr "a"]]) = false
  /\ writable false (JArr [JObj [("a", JArr [JStr "b"])]]) = true
  /\ writable false (JObj [("", JNum 1)]) = false
  /\ writable false (JObj [("__x__", JNum 1)]) = false
  /\ writable false (JObj [("__", JNum 1)]) = true
  /\ writable false (JObj [("a", JArr [JArr []]); ("a", JNum 1)]) = true.
Proof. vm_compute. repeat split. Qed.

(** A reply whose notes hold a list inside a list: nothing is stored, and
    the failure is reported. *)
Example nested_notes_refused :
  let st' := handleGenerateNotes bob
               (ReplyText (Returned (JObj [("notes", JArr [JArr [JStr "x"]])])))
               "uuid-1" bob_with_notes in
  docs (backend st') = docs (backend bob_with_notes)
  /\ error (comp st') = Some "Failed to generate notes from AI."
  /\ notesInput (comp st') = "photosynthesis".
Proof. vm_compute. auto. Qed.

Example room_of_three_roster :
  (participants <$> docs (store room_of_three) !! "HAPPY-RIVER-55")
  = Some [newParticipant alice; newParticipant bob; newParticipant carol]
  /\ (permissions <$> docs (store room_of_three) !! "HAPPY-RIVER-55")
     = Some {[ "alice" := mkPermission true; "bob" := mkPermission false;
               "carol" := mkPermission false ]}
  /\ newParticipant carol = mkParticipant "carol" "Anonymous" "".
Proof. vm_compute. auto. Qed.

(** ** Room codes *)

Section RoomCode.

Lemma round_nearest_even_le m s :
  0 <= m -> 0 < s ->
  0 <= Js.round_nearest_even m s
  /\ Js.round_nearest_even m s * 2 ^ s <= m + 2 ^ (s - 1).
Proof.
  intros Hm Hs. unfold Js.round_nearest_even.
  assert (Hp : 0 < 2 ^ s) by (apply Z.pow_pos_nonneg; lia).
  assert (Hh : 2 ^ s = 2 * 2 ^ (s - 1)).
  { rewrite <- Z.pow_succ_r by lia. f_equal. lia. }
  pose proof (Z.div_mod m (2 ^ s) ltac:(lia)) as Hdm.
  pose proof (Z.mod_pos_bound m (2 ^ s) Hp) as Hr.
  assert (Hq : 0 <= m / 2 ^ s) by (apply Z.div_pos; lia).
  set (q := m / 2 ^ s) in *. set (r := m mod 2 ^ s) in *.
  set (h := 2 ^ (s - 1)) in *. set (p := 2 ^ s) in *.
  destruct ((h <? r) || ((r =? h) && Z.odd q)) eqn:Hup.
  - assert (h <= r).
    { apply orb_true_iff in Hup as [H | H].
      - apply Z.ltb_lt in H. lia.
      - apply andb_true_iff in H as [H _]. apply Z.eqb_eq in H. lia. }
    split; [lia | nia].
  - split; [lia | nia].
Qed.

(** [Math.floor(Math.random() * n)] is an index below [n], rounding of the
    product included. *)
Lemma floor_mul_int_bound r n :
  Js.in_unit_interval r -> 0 < n ->
  0 <= Js.Math_floor (Js.mul_int r n) < n.
Proof.
  intros ((Hm0 & Hm53) & He & HmE) Hn.
  destruct r as [m e]; simpl in *.
  unfold Js.mul_int; simpl.
  assert (HE : 0 < 2 ^ (- e)) by (apply Z.pow_pos_nonneg; lia).
  destruct (Z.log2 (m * n) - 52 <=? 0) eqn:Hs.
  - unfold Js.Math_floor; simpl.
    destruct (0 <=? e) eqn:He'; [apply Z.leb_le in He'; lia |].
    split.
    + apply Z.div_pos; nia.
    + apply Z.div_lt_upper_bound; nia.
  - apply Z.leb_gt in Hs.
    assert (HM : 0 < m * n).
    { destruct (Z.le_gt_cases (m * n) 0) as [H | H]; [| lia].
      rewrite Z.log2_nonpos in Hs by lia. lia. }
    set (s := Z.log2 (m * n) - 52) in *.
    destruct (Z.log2_spec (m * n) HM) as [Hlo _].
    replace (Z.log2 (m * n)) with (s - 1 + 53) in Hlo by lia.
    rewrite Z.pow_add_r in Hlo by lia.
    destruct (round_nearest_even_le (m * n) s ltac:(lia) Hs) as [Hq0 Hq].
    set (q := Js.round_nearest_even (m * n) s) in *.
    assert (Hh : 0 < 2 ^ (s - 1)) by (apply Z.pow_pos_nonneg; lia).
    assert (Hhn : 2 ^ (s - 1) < n) by nia.
    assert (Hps : 0 < 2 ^ s) by (apply Z.pow_pos_nonneg; lia).
    assert (Hlt : q * 2 ^ s < n * 2 ^ (- e)) by nia.
    unfold Js.Math_floor; simpl.
    destruct (0 <=? e + s) eqn:Hes.
    + apply Z.leb_le in Hes.
      assert (Hsplit : 2 ^ s = 2 ^ (e + s) * 2 ^ (- e)).
      { rewrite <- Z.pow_add_r by lia. f_equal. lia. }
      assert (0 < 2 ^ (e + s)) by (apply Z.pow_pos_nonneg; lia).
      split; [nia |].
      rewrite Hsplit in Hlt. nia.
    + apply Z.leb_gt in Hes.
      assert (Hsplit : 2 ^ (- e) = 2 ^ (- (e + s)) * 2 ^ s).
      { rewrite <- Z.pow_add_r by lia. f_equal. lia. }
      assert (0 < 2 ^ (- (e + s))) by (apply Z.pow_pos_nonneg; lia).
      split.
      * apply Z.div_pos; lia.
      * apply Z.div_lt_upper_bound; [lia |].
        rewrite Hsplit in Hlt. nia.
Qed.

Lemma roomCodeOf_table :
  forallb (fun i =>
    forallb (fun j =>
      forallb (fun n =>
        Regex.matches Regex.room_code_format (roomCodeOf i j n)
        && bool_decide (Js.index_toString word1 i ∈ word1)
        && bool_decide (Js.index_toString word2 j ∈ word2))
      (seqZ 0 90)) (seqZ 0 6)) (seqZ 0 6) = true.
Proof. vm_compute. reflexivity. Qed.

Lemma roomCodeOf_ok i j n :
  0 <= i < 6 -> 0 <= j < 6 -> 0 <= n < 90 ->
  Regex.matches Regex.room_code_format (roomCodeOf i j n) = true
  /\ code_shape (roomCodeOf i j n).
Proof.
  intros Hi Hj Hn.
  pose proof roomCodeOf_table as T.
  rewrite forallb_forall in T.
  specialize (T i). rewrite forallb_forall in T by idtac.
  assert (Ti := T ltac:(apply list_elem_of_In, elem_of_seqZ; lia) j).
  clear T. rewrite forallb_forall in Ti.
  assert (Tn := Ti ltac:(apply list_elem_of_In, elem_of_seqZ; lia) n
                  ltac:(apply list_elem_of_In, elem_of_seqZ; lia)).
  apply andb_true_iff in Tn as [Tn T2]. apply andb_true_iff in Tn as [Tn T1].
  apply bool_decide_eq_true in T1, T2.
  split; [exact Tn |].
  exists (Js.index_toString word1 i), (Js.index_toString word2 j), (n + 10).
  repeat split; try assumption; lia.
Qed.

End RoomCode.

(** C9.  Whatever [Math.random()] returns on its three calls, the code built
    by [generateRoomCode] matches [^[A-Z]+-[A-Z]+-\d{2}$]: a word of [word1],
    a hyphen, a word of [word2], a hyphen, and a number between 10 and 99,
    hence of exactly two digits. *)
Theorem generateRoomCode_format (r1 r2 r3 : Js.double) :
  Js.in_unit_interval r1 -> Js.in_unit_interval r2 -> Js.in_unit_interval r3 ->
  Regex.matches Regex.room_code_format (generateRoomCode r1 r2 r3) = true
  /\ code_shape (generateRoomCode r1 r2 r3).
Proof.
  intros H1 H2 H3. unfold generateRoomCode.
  apply roomCodeOf_ok.
  - apply (floor_mul_int_bound r1 6 H1). lia.
  - apply (floor_mul_int_bound r2 6 H2). lia.
  - apply (floor_mul_int_bound r3 90 H3). lia.
Qed.

(** ** Leaving outside a room *)

(** C10.  [handleLeaveRoom] called while the room code is empty or no
    snapshot has been received returns at once: the documents, the calls
    made on the store, the listeners and the whole component state are as
    before. *)
Theorem handleLeaveRoom_outside_room (u : User) (st : St) :
  roomCode (comp st) = "" \/ sessionData (comp st) = None ->
  handleLeaveRoom u st = st.
Proof.
  intros [H | H]; unfold handleLeaveRoom; rewrite H; simpl.
  - reflexivity.
  - rewrite orb_true_r. reflexivity.
Qed.

Lemma handleLeaveRoom_outside_room_witness :
  handleLeaveRoom alice (mkSt (mkBackend ∅ []) initialComponent)
  = mkSt (mkBackend ∅ []) initialComponent.
Proof.
  apply (handleLeaveRoom_outside_room alice (mkSt (mkBackend ∅ []) initialComponent)).
  left. reflexivity.
Defined.

(** In particular a component that has just subscribed and has not yet been
    handed its first snapshot is not taken out of the room by
    [handleLeaveRoom]; [act] hands the snapshot over before the next
    action. *)
Example handleLeaveRoom_before_first_snapshot :
  let st := handleCreateRoom alice draw_zero draw_zero draw_zero 1000
              (mkSt (mkBackend ∅ []) initialComponent) in
  sessionData (comp st) = None /\ handleLeaveRoom alice st = st.
Proof. split; reflexivity. Qed.

(** ** Creating a room *)

Lemma append_hyphen_truthy a b : Js.truthy (a +:+ "-" +:+ b) = true.
Proof. destruct a; reflexivity. Qed.

Lemma generateRoomCode_truthy r1 r2 r3 : Js.truthy (generateRoomCode r1 r2 r3) = true.
Proof. unfold generateRoomCode, roomCodeOf. apply append_hyphen_truthy. Qed.

(** C4, as the code has it.  [handleCreateRoom] draws one code and writes
    the initial document under it with a single [setDoc], without reading
    the store first: the document under the drawn code is the new one
    whatever was there, and the documents under all other codes are
    untouched. *)
Theorem handleCreateRoom_single_write (u : User) (r1 r2 r3 : Js.double) (now : Z) (st : St) :
  let code := generateRoomCode r1 r2 r3 in
  let st' := handleCreateRoom u r1 r2 r3 now st in
  calls (backend st') = calls (backend st) ++ [CallSetDoc code; CallOnSnapshot code]
  /\ docs (backend st') !! code = Some (initialSessionData u now)
  /\ forall code', code' <> code ->
       docs (backend st') !! code' = docs (backend st) !! code'.
Proof.
  simpl. unfold handleCreateRoom, subscribeToSession, setDoc, called. simpl.
  split; [by rewrite <- app_assoc |].
  split; [apply lookup_insert_eq |].
  intros code' Hne. by apply lookup_insert_ne.
Qed.

(** C4 fails as stated: bob's room lives under HAPPY-FOX-10; carol creates a
    room and draws the same code; bob's document is replaced by hers. *)
Lemma handleCreateRoom_overwrites :
  let w := run [(0%nat, Create draw_zero draw_zero draw_zero 1000)] (boot [bob; carol]) in
  let w' := act 1 (Create draw_zero draw_zero draw_zero 2000) w in
  docs (store w) !! "HAPPY-FOX-10" = Some (initialSessionData bob 1000)
  /\ docs (store w') !! "HAPPY-FOX-10" = Some (initialSessionData carol 2000)
  /\ calls (store w')
     = [CallSetDoc "HAPPY-FOX-10"; CallOnSnapshot "HAPPY-FOX-10";
        CallSetDoc "HAPPY-FOX-10"; CallOnSnapshot "HAPPY-FOX-10"].
Proof. vm_compute. auto. Qed.

(** ** Leaving a room *)

Lemma truthy_ne (s : string) : s <> "" -> Js.truthy s = true.
Proof. destruct s; [congruence | reflexivity]. Qed.

Lemma truthy_true_ne (s : string) : Js.truthy s = true -> s <> "".
Proof. destruct s; [discriminate | congruence]. Qed.

Lemma updateDoc_present code f b d :
  docs b !! code = Some d ->
  updateDoc code f b
  = (true, mkBackend (<[code := f d]> (docs b)) (calls b ++ [CallUpdateDoc code])).
Proof. intros H. unfold updateDoc. rewrite H. reflexivity. Qed.

Lemma updateDoc_absent code f b :
  docs b !! code = None ->
  updateDoc code f b = (false, mkBackend (docs b) (calls b ++ [CallUpdateDoc code])).
Proof. intros H. unfold updateDoc. rewrite H. reflexivity. Qed.

(** The store as [handleLeaveRoom] leaves it, for a component that is in a
    room and has a snapshot [s]. *)
Lemma handleLeaveRoom_docs u st s :
  roomCode (comp st) <> "" -> sessionData (comp st) = Some s ->
  let code := roomCode (comp st) in
  let ds := docs (backend st) in
  let new := filter (fun p => uid p <> user_uid u) (participants s) in
  docs (backend (handleLeaveRoom u st))
  = match new with
    | p0 :: _ =>
        match ds !! code with
        | Some cur =>
            if String.eqb (user_uid u) (hostId s)
            then <[code := transferHostFields (uid p0) new cur]> ds
            else <[code := removeSelfFields u new cur]> ds
        | None => ds
        end
    | [] => delete code ds
    end.
Proof.
  intros Hcode Hs. simpl.
  unfold handleLeaveRoom, isHost, view_hostId, view_participants.
  rewrite Hs, (truthy_ne _ Hcode). simpl.
  set (new := filter _ (participants s)).
  assert (Hb0 : forall b0 c0,
    (match unsubscribeRef (comp st) with
     | Some code => (called (CallUnsubscribe code) (backend st),
                     setSubscription None (cancel code (listeners (comp st))) (comp st))
     | None => (backend st, comp st)
     end) = (b0, c0) -> docs b0 = docs (backend st)).
  { intros b0 c0. destruct (unsubscribeRef (comp st)); intros [= <- <-]; reflexivity. }
  destruct (match unsubscribeRef (comp st) with Some _ => _ | None => _ end)
    as [b0 c0] eqn:E.
  specialize (Hb0 b0 c0 eq_refl). simpl.
  destruct new as [| p0 rest]; simpl.
  - rewrite andb_false_r. simpl. by rewrite Hb0.
  - rewrite andb_true_r.
    replace (Z.pos (Pos.of_succ_nat (length rest)) =? 0) with false by reflexivity.
    rewrite <- Hb0.
    destruct (String.eqb (user_uid u) (hostId s)); simpl;
      destruct (docs b0 !! roomCode (comp st)) eqn:Ed.
    + by rewrite (updateDoc_present _ _ _ _ Ed).
    + by rewrite (updateDoc_absent _ _ _ Ed).
    + by rewrite (updateDoc_present _ _ _ _ Ed).
    + by rewrite (updateDoc_absent _ _ _ Ed).
Qed.

(** C5.  In a session whose roster is [H, B, C] with host [H], when [H]
    leaves, the stored session has host [B], [B] may share, and the roster
    is [B, C] in that order. *)
Theorem handleLeaveRoom_host_failover (u : User) (st : St) (s : SessionDoc)
    (H B C : Participant) :
  roomCode (comp st) <> "" ->
  sessionData (comp st) = Some s ->
  docs (backend st) !! roomCode (comp st) = Some s ->
  participants s = [H; B; C] ->
  hostId s = uid H ->
  user_uid u = uid H ->
  uid B <> uid H -> uid C <> uid H ->
  exists d,
    docs (backend (handleLeaveRoom u st)) !! roomCode (comp st) = Some d
    /\ hostId d = uid B
    /\ permissions d !! uid B = Some (mkPermission true)
    /\ participants d = [B; C].
Proof.
  intros Hcode Hs Hd Hps Hhost Hu HB HC.
  rewrite (handleLeaveRoom_docs u st s Hcode Hs). simpl.
  rewrite Hps, Hu, Hhost, Hd.
  rewrite filter_cons_False by (intros X; by apply X).
  rewrite filter_cons_True by done.
  rewrite filter_cons_True by done.
  rewrite filter_nil. rewrite String.eqb_refl.
  eexists. split; [apply lookup_insert_eq |].
  simpl. split; [done |]. split; [apply lookup_insert_eq | done].
Qed.

Lemma act_acting i a w cl :
  clients w !! i = Some cl ->
  let st := perform (who cl) a (mkSt (store w) (ui cl)) in
  store (act i a w) = backend st
  /\ clients (act i a w) !! i
     = Some (mkClient (who cl) (deliver (docs (backend st)) (comp st))).
Proof.
  intros Hi. simpl. unfold act. rewrite Hi. simpl. split; [reflexivity |].
  rewrite list_lookup_fmap, list_lookup_insert_eq by (by eapply lookup_lt_Some).
  reflexivity.
Qed.

Lemma filter_self_nil (k : string) (ps : list Participant) :
  (forall p, p ∈ ps -> uid p = k) ->
  filter (fun p => uid p <> k) ps = [].
Proof.
  induction ps as [| p ps IH]; intros Hall; [reflexivity |].
  rewrite filter_cons_False.
  - apply IH. intros q Hq. apply Hall. by right.
  - intros Hne. apply Hne, Hall. by left.
Qed.

Lemma handleLeaveRoom_last u st s :
  roomCode (comp st) <> "" ->
  sessionData (comp st) = Some s ->
  (forall p, p ∈ participants s -> uid p = user_uid u) ->
  docs (backend (handleLeaveRoom u st)) !! roomCode (comp st) = None.
Proof.
  intros Hcode Hs Hall.
  rewrite (handleLeaveRoom_docs u st s Hcode Hs). simpl.
  rewrite (filter_self_nil _ _ Hall). apply lookup_delete_eq.
Qed.

(** C6.  A client in the lobby that creates a room and leaves it right away
    leaves no document under the room's code; and whenever the one who
    leaves is the only one on the roster of the snapshot, the document of
    the room is deleted. *)
Theorem create_then_leave_deletes_session :
  (forall (w : World) (i : nat) (cl : Client) (r1 r2 r3 : Js.double) (now : Z),
     clients w !! i = Some cl ->
     roomCode (ui cl) = "" ->
     listeners (ui cl) = [] ->
     docs (store (run [(i, Create r1 r2 r3 now); (i, Leave)] w))
       !! generateRoomCode r1 r2 r3 = None)
  /\ (forall (u : User) (st : St) (s : SessionDoc),
        roomCode (comp st) <> "" ->
        sessionData (comp st) = Some s ->
        (forall p, p ∈ participants s -> uid p = user_uid u) ->
        docs (backend (handleLeaveRoom u st)) !! roomCode (comp st) = None).
Proof.
  split; [| exact handleLeaveRoom_last].
  intros w i cl r1 r2 r3 now Hi Hlobby Hls. simpl.
  destruct (act_acting i (Create r1 r2 r3 now) w cl Hi) as [Hstore Hcl].
  simpl in Hstore, Hcl. rewrite Hlobby in Hstore, Hcl. simpl in Hstore, Hcl.
  set (w1 := act i (Create r1 r2 r3 now) w) in *.
  set (code := generateRoomCode r1 r2 r3) in *.
  unfold deliver in Hcl. simpl in Hcl. rewrite Hls in Hcl. simpl in Hcl.
  unfold onSnapshotCallback in Hcl. rewrite lookup_insert_eq in Hcl.
  destruct (act_acting i Leave w1 _ Hcl) as [Hstore2 _].
  rewrite Hstore2. simpl.
  assert (Ht : Js.truthy code = true) by apply generateRoomCode_truthy.
  rewrite Ht. simpl.
  match goal with
  | |- docs (backend (handleLeaveRoom ?u ?st)) !! _ = None =>
      apply (handleLeaveRoom_last u st (initialSessionData u now))
  end; simpl.
  - by apply truthy_true_ne.
  - reflexivity.
  - intros p Hp. apply list_elem_of_singleton in Hp. by subst p.
Qed.

(** ** Invariants of the stored sessions *)

Section Invariants.

Lemma doc_ok_initial u now : doc_ok (initialSessionData u now).
Proof.
  repeat split.
  - exists (newParticipant u). split; [by left | reflexivity].
  - apply NoDup_singleton.
  - intros p Hp. apply list_elem_of_singleton in Hp. subst p. simpl.
    rewrite lookup_singleton_eq. by eexists.
Qed.

Lemma existsb_Participant_eqb p ps :
  existsb (Participant_eqb p) ps = true <-> p ∈ ps.
Proof.
  rewrite existsb_exists. split.
  - intros (q & Hq & E). apply bool_decide_eq_true in E. subst q.
    by apply list_elem_of_In.
  - intros Hp. exists p. split; [by apply list_elem_of_In |].
    by apply bool_decide_eq_true.
Qed.

Lemma arrayUnion_participants ps p :
  arrayUnion Participant_eqb ps p = (if decide (p ∈ ps) then ps else ps ++ [p]).
Proof.
  unfold arrayUnion. destruct (existsb (Participant_eqb p) ps) eqn:E.
  - apply existsb_Participant_eqb in E. by rewrite decide_True.
  - rewrite decide_False; [done |]. intros Hp.
    apply existsb_Participant_eqb in Hp. congruence.
Qed.

Lemma doc_ok_join u d : doc_ok d -> doc_ok (joinFields u d d).
Proof.
  intros ((h & Hh & Hhu) & Hnd & Hperm).
  unfold joinFields, doc_ok, host_is_member. simpl.
  rewrite arrayUnion_participants.
  destruct (decide (newParticipant u ∈ participants d)) as [Hin | Hout].
  - repeat split; [by exists h | done |].
    intros p Hp. apply lookup_insert_is_Some'. right. by apply Hperm.
  - repeat split.
    + exists h. split; [| done]. apply elem_of_app. by left.
    + apply NoDup_app. repeat split; [done | | apply NoDup_singleton].
      intros x Hx Hx'. apply list_elem_of_singleton in Hx'. by subst x.
    + intros p Hp. apply lookup_insert_is_Some'.
      apply elem_of_app in Hp as [Hp | Hp]; [right; by apply Hperm |].
      apply list_elem_of_singleton in Hp. subst p. by left.
Qed.

Lemma doc_ok_transfer k d p0 rest :
  doc_ok d ->
  filter (fun p => uid p <> k) (participants d) = p0 :: rest ->
  doc_ok (transferHostFields (uid p0) (p0 :: rest) d).
Proof.
  intros (_ & Hnd & Hperm) Hf.
  unfold transferHostFields, doc_ok, host_is_member. simpl.
  repeat split.
  - exists p0. split; [by left | done].
  - rewrite <- Hf. by apply NoDup_filter.
  - intros p Hp. apply lookup_insert_is_Some'. right. apply Hperm.
    rewrite <- Hf in Hp. by apply list_elem_of_filter in Hp as [_ Hp].
Qed.

Lemma doc_ok_remove u d new :
  doc_ok d ->
  user_uid u <> hostId d ->
  filter (fun p => uid p <> user_uid u) (participants d) = new ->
  doc_ok (removeSelfFields u new d).
Proof.
  intros ((h & Hh & Hhu) & Hnd & Hperm) Hne Hf.
  unfold removeSelfFields, doc_ok, host_is_member. simpl. subst new.
  repeat split.
  - exists h. split; [| done]. apply list_elem_of_filter. split; [| done].
    congruence.
  - by apply NoDup_filter.
  - intros p Hp. apply list_elem_of_filter in Hp as [Hk Hp].
    rewrite lookup_delete_ne by congruence. by apply Hperm.
Qed.

Lemma client_ok_pre ds ds' c : client_ok ds c -> client_pre ds' c.
Proof.
  intros [Hl | (Hr & s & Hs & _)]; [by left | right].
  split; [done |]. left. rewrite Hs. by eexists.
Qed.

Lemma deliver_ok ds c : client_pre ds c -> client_ok ds (deliver ds c).
Proof.
  intros [Hl | (Hr & Hsome)]; unfold deliver.
  - destruct Hl as (H1 & H2 & H3 & H4). rewrite H3. simpl. left. done.
  - destruct Hr as (H1 & H2 & H3). rewrite H2. simpl.
    unfold onSnapshotCallback. right.
    destruct (ds !! roomCode c) as [d |] eqn:Ed; simpl.
    + split; [done |]. exists d. split; [done |].
      rewrite Ed. by intros ? [= <-].
    + destruct Hsome as [[s Hs] | [d Hd]]; [| congruence].
      split; [done |]. exists s. split; [done |]. rewrite Ed. congruence.
Qed.

Lemma handleLeaveRoom_comp u st s :
  roomCode (comp st) <> "" -> sessionData (comp st) = Some s ->
  in_room (comp st) ->
  in_lobby (comp (handleLeaveRoom u st)).
Proof.
  intros Hcode Hs (_ & Hls & Hun).
  unfold handleLeaveRoom. rewrite Hs, (truthy_ne _ Hcode), Hun, Hls. simpl.
  rewrite String.eqb_refl. done.
Qed.

Lemma perform_ok u a b c :
  (forall code d, docs b !! code = Some d -> doc_ok d) ->
  client_ok (docs b) c ->
  let st := perform u a (mkSt b c) in
  (forall code d, docs (backend st) !! code = Some d -> doc_ok d)
  /\ client_pre (docs (backend st)) (comp st).
Proof.
  intros Hdocs Hc. simpl.
  assert (Hsame : (forall code d, docs b !! code = Some d -> doc_ok d)
                  /\ client_pre (docs b) c).
  { split; [done | by eapply client_ok_pre]. }
  destruct a as [r1 r2 r3 now | typed | |]; unfold perform; simpl.
  - (* Create *)
    destruct (Js.truthy (roomCode c)) eqn:Et; simpl; [done |].
    assert (Hl : in_lobby c).
    { destruct Hc as [Hl | ((Hne & _) & _)]; [done |].
      by rewrite (truthy_ne _ Hne) in Et. }
    destruct Hl as (_ & _ & Hls & _).
    split.
    + intros code d. rewrite lookup_insert.
      case_decide; [intros [= <-]; apply doc_ok_initial | apply Hdocs].
    + right. rewrite Hls. simpl. split.
      * split; [apply truthy_true_ne, generateRoomCode_truthy | done].
      * right. rewrite lookup_insert_eq. by eexists.
  - (* Join *)
    destruct (Js.truthy (roomCode c)) eqn:Et; simpl; [done |].
    assert (Hl : in_lobby c).
    { destruct Hc as [Hl | ((Hne & _) & _)]; [done |].
      by rewrite (truthy_ne _ Hne) in Et. }
    destruct Hl as (Hl1 & Hl2 & Hls & Hl4).
    unfold handleJoinRoom. simpl.
    set (code := Js.toUpperCase (Js.trim (Js.toUpperCase typed))).
    destruct (Js.truthy code) eqn:Ec; simpl.
    2:{ split; [done |]. left. done. }
    unfold updateDoc. simpl.
    destruct (docs b !! code) as [snap |] eqn:Ed; simpl.
    2:{ split; [done |]. left. done. }
    split.
    + intros code' d. rewrite lookup_insert.
      case_decide; [intros [= <-]; apply doc_ok_join; eauto | apply Hdocs].
    + right. rewrite Hls. simpl. split.
      * split; [by apply truthy_true_ne | done].
      * right. rewrite lookup_insert_eq. by eexists.
  - (* Leave *)
    destruct (Js.truthy (roomCode c)) eqn:Et; simpl; [| done].
    destruct Hc as [(Hl & _) | (Hr & s & Hs & Hsync)].
    { rewrite Hl in Et. discriminate. }
    pose proof (truthy_true_ne _ Et) as Hcode.
    split.
    + rewrite (handleLeaveRoom_docs u (mkSt b c) s Hcode Hs). simpl.
      destruct (filter (fun p => uid p <> user_uid u) (participants s))
        as [| p0 rest] eqn:Ef.
      * intros code d Hd. apply lookup_delete_Some in Hd as [_ Hd]. eauto.
      * destruct (docs b !! roomCode c) as [cur |] eqn:Ecur; [| done].
        pose proof (Hsync cur eq_refl) as ->.
        pose proof (Hdocs _ _ Ecur) as Hok.
        destruct (String.eqb (user_uid u) (hostId cur)) eqn:Eh;
          intros code d; rewrite lookup_insert;
          (case_decide; [intros [= <-] | apply Hdocs]).
        -- by eapply doc_ok_transfer.
        -- apply String.eqb_neq in Eh. by apply doc_ok_remove.
    + left. by apply (handleLeaveRoom_comp u (mkSt b c) s).
  - (* Reload *)
    unfold remount. simpl.
    destruct (unsubscribeRef c); simpl; (split; [done | by left]).
Qed.

Lemma act_ok i a w : world_ok w -> world_ok (act i a w).
Proof.
  intros [Hdocs Hcl]. unfold act.
  destruct (clients w !! i) as [cl |] eqn:Ei; [| done].
  pose proof (proj1 (Forall_lookup _ _) Hcl i cl Ei) as Hci. simpl in Hci.
  destruct (perform_ok (who cl) a (store w) (ui cl) Hdocs Hci) as [Hd' Hc'].
  set (st := perform (who cl) a (mkSt (store w) (ui cl))) in *.
  split; simpl; [done |].
  apply Forall_fmap. apply Forall_insert.
  - eapply Forall_impl; [exact Hcl |]. intros k Hk. simpl.
    apply deliver_ok. simpl in Hk. by eapply client_ok_pre.
  - simpl. by apply deliver_ok.
Qed.

Lemma boot_ok users : world_ok (boot users).
Proof.
  split; simpl.
  - intros code d. by rewrite lookup_empty.
  - apply Forall_fmap, Forall_forall. intros u _. by left.
Qed.

Lemma run_ok trace w : world_ok w -> world_ok (run trace w).
Proof.
  revert w. induction trace as [| [i a] trace IH]; intros w Hw; [done |].
  simpl. apply IH. by apply act_ok.
Qed.

End Invariants.


(** The roster never lacks a permissions entry, and a roster entry is never
    repeated, in any reachable stored session. *)
Lemma reachable_doc_ok (users : list User) (trace : list (nat * Action))
    (code : string) (d : SessionDoc) :
  docs (store (run trace (boot users))) !! code = Some d -> doc_ok d.
Proof.
  intros Hd.
  destruct (run_ok trace (boot users) (boot_ok users)) as [Hdocs _]. eauto.
Qed.

(** C1, at the input on which the code departs from it.  Alice opens a
    room, bob joins, alice leaves: the stored session has bob alone on the
    roster and as host, and alice still has her permissions entry. *)
Theorem host_leave_keeps_permissions_entry :
  let w := act 0 Leave room_of_two in
  exists d,
    docs (store w) !! "HAPPY-FOX-10" = Some d
    /\ participants d = [newParticipant bob]
    /\ hostId d = "bob"
    /\ permissions d
       = {[ "alice" := mkPermission true; "bob" := mkPermission true ]}
    /\ dom (permissions d) <> ids (participants d).
Proof.
  eexists. split; [vm_compute; reflexivity |].
  split; [reflexivity |]. split; [reflexivity |]. split; [reflexivity |].
  intros E.
  apply (f_equal (fun X : gset string => bool_decide ("alice" ∈ X))) in E.
  vm_compute in E. discriminate.
Qed.

(** The other branch of [handleLeaveRoom] does remove the entry: when bob,
    who is not the host, leaves, his permissions entry goes with him. *)
Example guest_leave_removes_permissions_entry :
  let w := act 1 Leave room_of_two in
  (permissions <$> docs (store w) !! "HAPPY-FOX-10")
  = Some {[ "alice" := mkPermission true ]}.
Proof. vm_compute. reflexivity. Qed.

(** ** Joining a room *)

Section Join.

Lemma handleJoinRoom_docs u b c code d :
  Js.toUpperCase (Js.trim (inputRoomCode c)) = code ->
  code <> "" ->
  docs b !! code = Some d ->
  docs (backend (handleJoinRoom u (mkSt b c))) = <[code := joinFields u d d]> (docs b).
Proof.
  intros Hin Hne Hd. unfold handleJoinRoom. simpl.
  rewrite Hin, (truthy_ne _ Hne). simpl.
  unfold updateDoc. simpl. rewrite Hd. reflexivity.
Qed.

Lemma filter_uid_absent k p (ps : list Participant) :
  (forall q, q ∈ ps -> uid q = k -> q = p) ->
  p ∉ ps ->
  filter (fun q => uid q = k) ps = [].
Proof.
  induction ps as [| q ps IH]; intros Hsame Hout; [reflexivity |].
  rewrite filter_cons_False.
  - apply IH.
    + intros r Hr. apply Hsame. by right.
    + intros Hp. apply Hout. by right.
  - intros Hk. apply Hout. rewrite <- (Hsame q) by (done || by left). by left.
Qed.

Lemma entries_of_present k p (ps : list Participant) :
  NoDup ps ->
  (forall q, q ∈ ps -> uid q = k -> q = p) ->
  p ∈ ps -> uid p = k ->
  entries_of k ps = 1%nat.
Proof.
  unfold entries_of.
  induction ps as [| q ps IH]; intros Hnd Hsame Hin Hk.
  - by apply elem_of_nil in Hin.
  - apply NoDup_cons in Hnd as [Hq Hnd].
    destruct (decide (q = p)) as [-> | Hne].
    + rewrite filter_cons_True by done.
      rewrite (filter_uid_absent k p ps); [done | | done].
      intros r Hr. apply Hsame. by right.
    + rewrite filter_cons_False.
      * apply IH; [done | | | done].
        -- intros r Hr. apply Hsame. by right.
        -- apply elem_of_cons in Hin as [Hin | Hin]; [congruence | done].
      * intros Hqk. apply Hne, Hsame; [by left | done].
Qed.

Lemma entries_of_appended k p (ps : list Participant) :
  (forall q, q ∈ ps -> uid q = k -> q = p) ->
  p ∉ ps -> uid p = k ->
  entries_of k (ps ++ [p]) = 1%nat.
Proof.
  intros Hsame Hout Hk. unfold entries_of.
  rewrite filter_app, (filter_uid_absent k p ps Hsame Hout).
  by rewrite filter_cons_True.
Qed.

End Join.

(** C3, as the code has it.  Joining an existing room twice with the same
    identity leaves exactly one roster entry with that id; the caller's
    permissions entry is written as [canShare: false] on each call, whatever
    it held, and the entries of all others are kept. *)
Theorem handleJoinRoom_twice (u : User) (b : Backend) (c1 c2 : Component)
    (code : string) (d : SessionDoc) :
  Js.toUpperCase (Js.trim (inputRoomCode c1)) = code ->
  Js.toUpperCase (Js.trim (inputRoomCode c2)) = code ->
  code <> "" ->
  docs b !! code = Some d ->
  NoDup (participants d) ->
  (forall p, p ∈ participants d -> uid p = user_uid u -> p = newParticipant u) ->
  let st1 := handleJoinRoom u (mkSt b c1) in
  let st2 := handleJoinRoom u (mkSt (backend st1) c2) in
  exists d2,
    docs (backend st2) !! code = Some d2
    /\ entries_of (user_uid u) (participants d2) = 1%nat
    /\ permissions d2 !! user_uid u = Some (mkPermission false)
    /\ forall k, k <> user_uid u -> permissions d2 !! k = permissions d !! k.
Proof.
  intros H1 H2 Hne Hd Hnd Hsame. simpl.
  pose proof (handleJoinRoom_docs u b c1 code d H1 Hne Hd) as E1.
  assert (Hd1 : docs (backend (handleJoinRoom u (mkSt b c1))) !! code
                = Some (joinFields u d d)).
  { rewrite E1. apply lookup_insert_eq. }
  rewrite (handleJoinRoom_docs u _ c2 code _ H2 Hne Hd1).
  eexists. split; [apply lookup_insert_eq |].
  unfold joinFields. simpl. rewrite !arrayUnion_participants.
  split; [| split].
  - destruct (decide (newParticipant u ∈ participants d)) as [Hin | Hout].
    + rewrite decide_True by done. by apply (entries_of_present _ (newParticipant u)).
    + rewrite decide_True by (apply elem_of_app; right; by left).
      by apply entries_of_appended.
  - apply lookup_insert_eq.
  - intros k Hk. by rewrite !lookup_insert_ne.
Qed.

(** C3 fails as stated.  Alice, who opened the room and may share, joins it
    twice after reloading: one roster entry, and her flag is now false.
    Bob joins, becomes host and may share when alice leaves, and joins again
    after a reload: that second call resets his flag to false. *)
Lemma handleJoinRoom_resets_canShare :
  (let w0 := run [(0%nat, Create draw_zero draw_zero draw_zero 1000); (0%nat, Reload)]
               (boot [alice]) in
   let w2 := run [(0%nat, Join "HAPPY-FOX-10"); (0%nat, Reload);
                  (0%nat, Join "HAPPY-FOX-10")] w0 in
   (permissions <$> docs (store w0) !! "HAPPY-FOX-10")
     = Some {[ "alice" := mkPermission true ]}
   /\ (permissions <$> docs (store w2) !! "HAPPY-FOX-10")
     = Some {[ "alice" := mkPermission false ]}
   /\ (participants <$> docs (store w2) !! "HAPPY-FOX-10")
     = Some [newParticipant alice])
  /\ (let w1 := run [(0%nat, Leave); (1%nat, Reload)] room_of_two in
      let w2 := act 1 (Join "HAPPY-FOX-10") w1 in
      (permissions <$> docs (store w1) !! "HAPPY-FOX-10")
        = Some {[ "alice" := mkPermission true; "bob" := mkPermission true ]}
      /\ (permissions <$> docs (store w2) !! "HAPPY-FOX-10")
        = Some {[ "alice" := mkPermission true; "bob" := mkPermission false ]}
      /\ (participants <$> docs (store w2) !! "HAPPY-FOX-10")
        = Some [newParticipant bob]).
Proof. vm_compute. repeat split; reflexivity. Qed.

(** ** Generating shared notes *)

Section Notes.

Lemma existsb_note_fresh blk (ns : list SharedNoteBlock) :
  (forall n, n ∈ ns -> note_id n <> note_id blk) ->
  existsb (SharedNoteBlock_eqb blk) ns = false.
Proof.
  induction ns as [| n ns IH]; intros Hfresh; [reflexivity |]. simpl.
  rewrite IH by (intros m Hm; apply Hfresh; by right).
  rewrite orb_false_r. unfold SharedNoteBlock_eqb.
  assert (Hn : note_id n <> note_id blk) by (apply Hfresh; by left).
  assert (E : String.eqb (note_id blk) (note_id n) = false)
    by (apply String.eqb_neq; congruence).
  by rewrite E.
Qed.

Lemma schema_notes_writable (w : Json) :
  schema_notes w = true -> writable false w = true.
Proof.
  destruct w as [| | | | items |]; try discriminate. simpl.
  induction items as [| x items IH]; [done |]. simpl.
  destruct x; try discriminate. exact IH.
Qed.

Lemma nested_array_not_writable (items : list Json) :
  has_array_element items = true -> writable false (JArr items) = false.
Proof.
  simpl. induction items as [| x items IH]; [discriminate |]. simpl.
  intros H. destruct x; simpl in *;
    try (rewrite (IH H); by rewrite ?andb_false_r).
  done.
Qed.

(** Nothing is sent to the store when the reply cannot be used. *)
Lemma handleGenerateNotes_failed u uuid st reply :
  reply = RequestFailed \/ reply = ReplyText Threw
  \/ reply = ReplyText (Returned JNull) ->
  backend (handleGenerateNotes u reply uuid st) = backend st.
Proof.
  intros Hr. unfold handleGenerateNotes.
  destruct (Js.truthy (Js.trim (notesInput (comp st)))); simpl; [| reflexivity].
  destruct Hr as [-> | [-> | ->]]; reflexivity.
Qed.

End Notes.

(** C2, as the code has it.  [handleGenerateNotes] does not look at the
    permissions: for any caller, whatever the [canShare] of its entry, a
    non-blank input and a reply whose notes are a list of strings, as the
    schema asks, or are missing, append one note block, authored by the
    caller, to the shared notes of the room. *)
Theorem handleGenerateNotes_ungated (u : User) (uuid : string) (st : St)
    (d : SessionDoc) (j : Json) (v : option Json) :
  Js.truthy (Js.trim (notesInput (comp st))) = true ->
  roomCode (comp st) <> "" ->
  docs (backend st) !! roomCode (comp st) = Some d ->
  get_notes j = Returned v ->
  schema_notes (or_empty_array v) = true ->
  (forall n, n ∈ sharedNotes d -> note_id n <> uuid) ->
  let block :=
    mkNote uuid (user_uid u) (orElse (displayName u) "Anonymous") (or_empty_array v) in
  docs (backend (handleGenerateNotes u (ReplyText (Returned j)) uuid st))
    !! roomCode (comp st)
  = Some (set_sharedNotes (sharedNotes d ++ [block]) d).
Proof.
  intros Hin Hcode Hd Hj Hshape Hfresh. simpl.
  unfold handleGenerateNotes. rewrite Hin, Hj, (truthy_ne _ Hcode). simpl.
  rewrite (schema_notes_writable _ Hshape). unfold updateDocUnion.
  rewrite (updateDoc_present _ _ _ _ Hd). simpl.
  rewrite lookup_insert_eq. unfold arrayUnion.
  by rewrite existsb_note_fresh.
Qed.

(** C2 fails as stated: bob's entry has [canShare: false], and the notes he
    generates are appended to the shared notes all the same. *)
Lemma handleGenerateNotes_no_permission_check :
  let reply := ReplyText (Returned (JObj [("notes", JArr [JStr "# Light"])])) in
  let st' := handleGenerateNotes bob reply "uuid-1" bob_with_notes in
  myPermissions bob (comp bob_with_notes) = mkPermission false
  /\ (permissions <$> docs (backend bob_with_notes) !! "HAPPY-FOX-10")
     = Some {[ "alice" := mkPermission true; "bob" := mkPermission false ]}
  /\ (sharedNotes <$> docs (backend bob_with_notes) !! "HAPPY-FOX-10") = Some []
  /\ (sharedNotes <$> docs (backend st') !! "HAPPY-FOX-10")
     = Some [mkNote "uuid-1" "bob" "Bob" (JArr [JStr "# Light"])]
  /\ error (comp st') = None.
Proof. vm_compute. repeat split; reflexivity. Qed.

(** C8, as the code has it.  When the request fails, when the reply is not
    parseable, or when it parses to [null], nothing is written: the
    documents and the calls made on the store are as before.  A reply that
    parses to another value and has no [notes], or has [null], [false],
    zero or the empty text for it, is not turned down although the schema
    requires [notes]: a block with no notes is appended.  A [notes] with an
    array directly inside it is refused when it is written, and the
    documents are as before. *)
Theorem handleGenerateNotes_unusable_reply (u : User) (uuid : string) (st : St) :
  (forall reply,
     reply = RequestFailed \/ reply = ReplyText Threw
     \/ reply = ReplyText (Returned JNull) ->
     docs (backend (handleGenerateNotes u reply uuid st)) = docs (backend st)
     /\ calls (backend (handleGenerateNotes u reply uuid st)) = calls (backend st))
  /\ (forall (j : Json) (v : option Json) (d : SessionDoc),
        Js.truthy (Js.trim (notesInput (comp st))) = true ->
        roomCode (comp st) <> "" ->
        docs (backend st) !! roomCode (comp st) = Some d ->
        get_notes j = Returned v ->
        (v = None \/ exists w, v = Some w /\ Json_truthy w = false) ->
        (forall n, n ∈ sharedNotes d -> note_id n <> uuid) ->
        docs (backend (handleGenerateNotes u (ReplyText (Returned j)) uuid st))
          !! roomCode (comp st)
        = Some (set_sharedNotes
                  (sharedNotes d
                     ++ [mkNote uuid (user_uid u) (orElse (displayName u) "Anonymous")
                           (JArr [])]) d))
  /\ (forall (j : Json) (items : list Json),
        get_notes j = Returned (Some (JArr items)) ->
        has_array_element items = true ->
        docs (backend (handleGenerateNotes u (ReplyText (Returned j)) uuid st))
        = docs (backend st)).
Proof.
  split; [| split].
  - intros reply Hr. by rewrite (handleGenerateNotes_failed u uuid st reply Hr).
  - intros j v d Hin Hcode Hd Hj Hv Hfresh.
    assert (E : or_empty_array v = JArr []).
    { destruct Hv as [-> | (w & -> & Hw)]; [done |]. simpl. by rewrite Hw. }
    unfold handleGenerateNotes. rewrite Hin, Hj, (truthy_ne _ Hcode), E. simpl.
    rewrite (updateDoc_present _ _ _ _ Hd). simpl.
    rewrite lookup_insert_eq. unfold arrayUnion.
    by rewrite existsb_note_fresh.
  - intros j items Hj Hitems. unfold handleGenerateNotes.
    destruct (negb _); [done |]. rewrite Hj.
    cbv beta iota zeta.
    destruct (negb (Js.truthy (roomCode (comp st)))); [done |].
    change (notes (mkNote uuid (user_uid u) (orElse (displayName u) "Anonymous")
                     (or_empty_array (Some (JArr items)))))
      with (JArr items).
    rewrite (nested_array_not_writable items Hitems). reflexivity.
Qed.

(** C8 fails as stated for replies that parse but do not follow the schema:
    an object without [notes] is stored as a block with no notes, and a
    [notes] that is not an array is stored as it is. *)
Lemma handleGenerateNotes_schema_violation_written :
  let st1 := handleGenerateNotes bob (ReplyText (Returned (JObj []))) "uuid-1"
               bob_with_notes in
  let st2 := handleGenerateNotes bob
               (ReplyText (Returned (JObj [("notes", JNum 7)]))) "uuid-2"
               bob_with_notes in
  (sharedNotes <$> docs (backend bob_with_notes) !! "HAPPY-FOX-10") = Some []
  /\ (sharedNotes <$> docs (backend st1) !! "HAPPY-FOX-10")
     = Some [mkNote "uuid-1" "bob" "Bob" (JArr [])]
  /\ (sharedNotes <$> docs (backend st2) !! "HAPPY-FOX-10")
     = Some [mkNote "uuid-2" "bob" "Bob" (JNum 7)].
Proof. vm_compute. repeat split; reflexivity. Qed.

(** ** The statements at sample inputs *)

Lemma generateRoomCode_format_witness :
  Regex.matches Regex.room_code_format (generateRoomCode draw_zero draw_half draw_half) = true
  /\ code_shape (generateRoomCode draw_zero draw_half draw_half).
Proof.
  apply (generateRoomCode_format draw_zero draw_half draw_half);
    unfold Js.in_unit_interval; simpl; lia.
Defined.

Lemma handleLeaveRoom_host_failover_witness :
  exists d,
    docs (backend (handleLeaveRoom alice (stAt 0 room_of_three))) !! "HAPPY-RIVER-55" = Some d
    /\ hostId d = "bob"
    /\ permissions d !! "bob" = Some (mkPermission true)
    /\ participants d = [newParticipant bob; newParticipant carol].
Proof.
  apply (handleLeaveRoom_host_failover alice (stAt 0 room_of_three)
           (snapshotOf (stAt 0 room_of_three))
           (newParticipant alice) (newParticipant bob) (newParticipant carol));
    vm_compute; (reflexivity || discriminate).
Defined.

Lemma create_then_leave_deletes_session_witness :
  docs (store (run [(0%nat, Create draw_zero draw_half draw_half 1000); (0%nat, Leave)]
                 (boot [alice])))
    !! generateRoomCode draw_zero draw_half draw_half = None
  /\ docs (backend (handleLeaveRoom bob (stAt 1 (act 0 Leave room_of_two))))
       !! "HAPPY-FOX-10" = None.
Proof.
  split.
  - apply (proj1 create_then_leave_deletes_session (boot [alice]) 0%nat
             (mkClient alice initialComponent)); reflexivity.
  - apply (proj2 create_then_leave_deletes_session bob
             (stAt 1 (act 0 Leave room_of_two))
             (snapshotOf (stAt 1 (act 0 Leave room_of_two)))).
    + vm_compute. discriminate.
    + vm_compute. reflexivity.
    + intros p Hp. vm_compute in Hp. apply list_elem_of_singleton in Hp.
      subst p. reflexivity.
Defined.


Lemma handleJoinRoom_twice_witness :
  let c := setInputRoomCode " happy-fox-10" initialComponent in
  let st1 := handleJoinRoom alice (mkSt (store room_of_two) c) in
  let st2 := handleJoinRoom alice (mkSt (backend st1) c) in
  exists d2,
    docs (backend st2) !! "HAPPY-FOX-10" = Some d2
    /\ entries_of "alice" (participants d2) = 1%nat
    /\ permissions d2 !! "alice" = Some (mkPermission false)
    /\ forall k, k <> "alice" ->
         permissions d2 !! k
         = permissions (snapshotOf (stAt 0 room_of_two)) !! k.
Proof.
  apply (handleJoinRoom_twice alice (store room_of_two)
           (setInputRoomCode " happy-fox-10" initialComponent)
           (setInputRoomCode " happy-fox-10" initialComponent)
           "HAPPY-FOX-10" (snapshotOf (stAt 0 room_of_two))).
  - reflexivity.
  - reflexivity.
  - discriminate.
  - vm_compute. reflexivity.
  - change (NoDup [newParticipant alice; newParticipant bob]).
    apply NoDup_cons. split; [| apply NoDup_singleton].
    intros Hx. apply list_elem_of_singleton in Hx. discriminate.
  - intros p Hp Hu. vm_compute in Hp.
    apply elem_of_cons in Hp as [-> | Hp]; [reflexivity |].
    apply list_elem_of_singleton in Hp. subst p. discriminate.
Defined.

Lemma handleGenerateNotes_ungated_witness :
  canShare (myPermissions bob (comp bob_with_notes)) = false
  /\ docs (backend (handleGenerateNotes bob
                      (ReplyText (Returned (JObj [("notes", JArr [JStr "# Light"])])))
                      "uuid-1" bob_with_notes))
       !! "HAPPY-FOX-10"
     = Some (set_sharedNotes
               [mkNote "uuid-1" "bob" "Bob" (JArr [JStr "# Light"])]
               (snapshotOf (stAt 1 room_of_two))).
Proof.
  split; [reflexivity |].
  apply (handleGenerateNotes_ungated bob "uuid-1" bob_with_notes
           (snapshotOf (stAt 1 room_of_two))
           (JObj [("notes", JArr [JStr "# Light"])])
           (Some (JArr [JStr "# Light"]))).
  - reflexivity.
  - vm_compute. discriminate.
  - vm_compute. reflexivity.
  - reflexivity.
  - reflexivity.
  - intros n Hn. vm_compute in Hn. by apply elem_of_nil in Hn.
Defined.

Lemma handleGenerateNotes_unusable_reply_witness :
  (docs (backend (handleGenerateNotes bob (ReplyText Threw) "uuid-1" bob_with_notes))
   = docs (backend bob_with_notes)
   /\ calls (backend (handleGenerateNotes bob (ReplyText Threw) "uuid-1" bob_with_notes))
      = calls (backend bob_with_notes))
  /\ docs (backend (handleGenerateNotes bob (ReplyText (Returned (JObj [("notes", JStr "")])))
                      "uuid-1" bob_with_notes))
       !! roomCode (comp bob_with_notes)
     = Some (set_sharedNotes
               (sharedNotes (snapshotOf (stAt 1 room_of_two))
                  ++ [mkNote "uuid-1" "bob" "Bob" (JArr [])])
               (snapshotOf (stAt 1 room_of_two)))
  /\ docs (backend (handleGenerateNotes bob
                      (ReplyText (Returned (JObj [("notes", JArr [JArr [JStr "x"]])])))
                      "uuid-1" bob_with_notes))
     = docs (backend bob_with_notes).
Proof.
  destruct (handleGenerateNotes_unusable_reply bob "uuid-1" bob_with_notes)
    as (H1 & H2 & H3).
  split; [| split].
  - apply (H1 (ReplyText Threw)). right. left. reflexivity.
  - apply (H2 (JObj [("notes", JStr "")]) (Some (JStr ""))
              (snapshotOf (stAt 1 room_of_two))).
    + reflexivity.
    + vm_compute. discriminate.
    + vm_compute. reflexivity.
    + reflexivity.
    + right. exists (JStr ""). split; reflexivity.
    + intros n Hn. vm_compute in Hn. by apply elem_of_nil in Hn.
  - apply (H3 (JObj [("notes", JArr [JArr [JStr "x"]])]) [JArr [JStr "x"]]);
      reflexivity.
Defined.

(** * Further properties of the handlers *)

(** ** Joining: inputs that do not name a room *)

Lemma toUpperCase_empty s : Js.toUpperCase s = "" -> s = "".
Proof. destruct s; [done | discriminate]. Qed.

(** An input that is empty once trimmed is refused before any call on the
    store: the only effect is the message asking for a code. *)
Theorem handleJoinRoom_blank_code (u : User) (st : St) :
  Js.trim (inputRoomCode (comp st)) = "" ->
  handleJoinRoom u st
  = mkSt (backend st) (setError (Some "Please enter a room code.") (comp st)).
Proof. intros H. unfold handleJoinRoom. rewrite H. reflexivity. Qed.

(** Joining a well-formed room code under which nothing is stored reads
    the store once and writes nothing: no document, no listener, and the
    component stays where it was, with the message that the room was not
    found. *)
Theorem handleJoinRoom_room_not_found (u : User) (st : St) (code : string) :
  Js.toUpperCase (Js.trim (inputRoomCode (comp st))) = code ->
  Regex.matches Regex.room_code_format code = true ->
  docs (backend st) !! code = None ->
  handleJoinRoom u st
  = mkSt (called (CallGetDoc code) (backend st))
         (setError (Some "Room not found.") (comp st)).
Proof.
  intros Hin Hfmt Hd. unfold handleJoinRoom.
  assert (Hne : code <> "") by (intros ->; discriminate).
  rewrite Hin, (truthy_ne _ Hne). simpl. rewrite Hd. reflexivity.
Qed.

(** Someone not yet on the roster is put at its end, behind everyone who
    joined before, with [canShare: false]; host, chat, notes, flashcards,
    quiz and creation time stay as they are, and the component enters the
    room and listens to it. *)
Theorem handleJoinRoom_new_member (u : User) (st : St) (code : string) (d : SessionDoc) :
  Js.toUpperCase (Js.trim (inputRoomCode (comp st))) = code ->
  code <> "" ->
  docs (backend st) !! code = Some d ->
  newParticipant u ∉ participants d ->
  handleJoinRoom u st
  = mkSt
      (mkBackend
         (<[code := mkSession (hostId d) (participants d ++ [newParticipant u])
                      (chatMessages d) (sharedNotes d) (sharedFlashcards d)
                      (quizState d)
                      (<[user_uid u := mkPermission false]> (permissions d))
                      (createdAt d)]> (docs (backend st)))
         (calls (backend st)
            ++ [CallGetDoc code; CallUpdateDoc code; CallOnSnapshot code]))
      (setSubscription (Some code) (listeners (comp st) ++ [code])
         (setRoomCode code (comp st))).
Proof.
  intros Hin Hne Hd Hout. unfold handleJoinRoom.
  rewrite Hin, (truthy_ne _ Hne). simpl. unfold updateDoc. simpl. rewrite Hd.
  unfold subscribeToSession, called, joinFields. simpl.
  rewrite arrayUnion_participants, decide_False by done.
  by rewrite <- !app_assoc.
Qed.

(** ** Chat messages *)

Lemma arrayUnion_chat (ms : list GroupChatMessage) (m : GroupChatMessage) :
  arrayUnion GroupChatMessage_eqb ms m = (if decide (m ∈ ms) then ms else ms ++ [m]).
Proof.
  unfold arrayUnion. destruct (existsb (GroupChatMessage_eqb m) ms) eqn:E.
  - rewrite decide_True; [done |].
    apply existsb_exists in E as (q & Hq & E).
    apply bool_decide_eq_true in E. subst q. by apply list_elem_of_In.
  - rewrite decide_False; [done |]. intros Hm.
    assert (existsb (GroupChatMessage_eqb m) ms = true); [| congruence].
    apply existsb_exists. exists m. split; [by apply list_elem_of_In |].
    by apply bool_decide_eq_true.
Qed.

(** Nothing is sent while the chat input is blank or the component is in no
    room: the store and the component are as before. *)
Theorem handleSendChatMessage_nothing_to_send (u : User) (uuid : string) (now : Z) (st : St) :
  Js.trim (chatInput (comp st)) = "" \/ roomCode (comp st) = "" ->
  handleSendChatMessage u uuid now st = st.
Proof.
  intros [H | H]; unfold handleSendChatMessage; rewrite H; simpl.
  - reflexivity.
  - by rewrite orb_true_r.
Qed.

(** A message sent to a stored room goes to the end of its chat, as typed
    (the text is not trimmed) and signed with the sender's id and name,
    unless the very same message is already there; one [updateDoc] is
    made, no permission is consulted, and the input is cleared. *)
Theorem handleSendChatMessage_appends (u : User) (uuid : string) (now : Z) (st : St)
    (d : SessionDoc) :
  Js.trim (chatInput (comp st)) <> "" ->
  roomCode (comp st) <> "" ->
  docs (backend st) !! roomCode (comp st) = Some d ->
  let message :=
    mkChat uuid (user_uid u) (orElse (displayName u) "Anonymous")
      (chatInput (comp st)) now in
  handleSendChatMessage u uuid now st
  = mkSt
      (mkBackend
         (<[roomCode (comp st) :=
              set_chatMessages
                (if decide (message ∈ chatMessages d) then chatMessages d
                 else chatMessages d ++ [message]) d]> (docs (backend st)))
         (calls (backend st) ++ [CallUpdateDoc (roomCode (comp st))]))
      (setChatInput "" (comp st)).
Proof.
  intros Hin Hcode Hd. simpl. unfold handleSendChatMessage.
  rewrite (truthy_ne _ Hin), (truthy_ne _ Hcode). simpl.
  rewrite (updateDoc_present _ _ _ _ Hd). by rewrite arrayUnion_chat.
Qed.

(** When the room's document is gone the message is stored nowhere, no
    document appears, and the typed text is kept in the input. *)
Theorem handleSendChatMessage_room_gone (u : User) (uuid : string) (now : Z) (st : St) :
  docs (backend st) !! roomCode (comp st) = None ->
  docs (backend (handleSendChatMessage u uuid now st)) = docs (backend st)
  /\ comp (handleSendChatMessage u uuid now st) = comp st.
Proof.
  intros Hd. unfold handleSendChatMessage.
  destruct (negb _ || negb _); [done |].
  by rewrite (updateDoc_absent _ _ _ Hd).
Qed.

(** The chat is append-only: whatever is sent, every stored session keeps
    its earlier messages in order at the front of its chat, gains at most
    one message, and changes in nothing but its chat. *)
Theorem handleSendChatMessage_append_only (u : User) (uuid : string) (now : Z) (st : St)
    (code : string) (d : SessionDoc) :
  docs (backend st) !! code = Some d ->
  exists d',
    docs (backend (handleSendChatMessage u uuid now st)) !! code = Some d'
    /\ chatMessages d `prefix_of` chatMessages d'
    /\ (length (chatMessages d') <= S (length (chatMessages d)))%nat
    /\ same_but_chat d d'.
Proof.
  intros Hd. unfold handleSendChatMessage.
  assert (Hsame : exists d', docs (backend st) !! code = Some d'
            /\ chatMessages d `prefix_of` chatMessages d'
            /\ (length (chatMessages d') <= S (length (chatMessages d)))%nat
            /\ same_but_chat d d').
  { exists d. repeat split; [done | done | lia]. }
  destruct (negb _ || negb _); [done |].
  destruct (docs (backend st) !! roomCode (comp st)) as [cur |] eqn:Ecur.
  2:{ by rewrite (updateDoc_absent _ _ _ Ecur). }
  rewrite (updateDoc_present _ _ _ _ Ecur). simpl.
  destruct (decide (roomCode (comp st) = code)) as [<- | Hne].
  2:{ by rewrite lookup_insert_ne. }
  rewrite lookup_insert_eq. rewrite Ecur in Hd. injection Hd as ->.
  eexists. split; [done |]. simpl. rewrite arrayUnion_chat.
  case_decide.
  - repeat split; [done | lia].
  - repeat split; [by apply prefix_app_r | rewrite length_app; simpl; lia].
Qed.

(** ** Shared notes *)

(** With a blank notes input the handler does nothing, whatever the model
    would have answered. *)
Theorem handleGenerateNotes_blank_input (u : User) (reply : OracleReply) (uuid : string)
    (st : St) :
  Js.trim (notesInput (comp st)) = "" ->
  handleGenerateNotes u reply uuid st = st.
Proof. intros H. unfold handleGenerateNotes. by rewrite H. Qed.


(** The shared notes are append-only: whatever the reply, every stored
    session keeps its earlier note blocks in order at the front, gains at
    most one block, and changes in nothing but its notes. *)
Theorem handleGenerateNotes_append_only (u : User) (reply : OracleReply) (uuid : string)
    (st : St) (code : string) (d : SessionDoc) :
  docs (backend st) !! code = Some d ->
  exists d',
    docs (backend (handleGenerateNotes u reply uuid st)) !! code = Some d'
    /\ sharedNotes d `prefix_of` sharedNotes d'
    /\ (length (sharedNotes d') <= S (length (sharedNotes d)))%nat
    /\ same_but_notes d d'.
Proof.
  intros Hd. unfold handleGenerateNotes.
  assert (Hsame : exists d', docs (backend st) !! code = Some d'
            /\ sharedNotes d `prefix_of` sharedNotes d'
            /\ (length (sharedNotes d') <= S (length (sharedNotes d)))%nat
            /\ same_but_notes d d').
  { exists d. repeat split; [done | done | lia]. }
  destruct (negb _); [done |].
  destruct reply as [| [| j]]; simpl; try done.
  destruct (get_notes j) as [| v]; simpl; try done.
  destruct (negb _); simpl; try done.
  unfold updateDocUnion. destruct (writable _ _); [| done].
  destruct (docs (backend st) !! roomCode (comp st)) as [cur |] eqn:Ecur.
  2:{ by rewrite (updateDoc_absent _ _ _ Ecur). }
  rewrite (updateDoc_present _ _ _ _ Ecur). simpl.
  destruct (decide (roomCode (comp st) = code)) as [<- | Hne].
  2:{ by rewrite lookup_insert_ne. }
  rewrite lookup_insert_eq. rewrite Ecur in Hd. injection Hd as ->.
  eexists. split; [done |]. simpl. unfold arrayUnion.
  destruct (existsb _ _).
  - repeat split; [done | lia].
  - repeat split; [by apply prefix_app_r | rewrite length_app; simpl; lia].
Qed.

(** ** Which sessions a handler can create or delete *)

Section RoomSet.

Lemma updateDoc_dom code f b :
  dom (docs (snd (updateDoc code f b))) = dom (docs b).
Proof.
  unfold updateDoc. destruct (docs b !! code) as [d |] eqn:E; simpl; [| done].
  by apply dom_insert_lookup_L.
Qed.

Lemma updateDoc_other code f b code' :
  code' <> code -> docs (snd (updateDoc code f b)) !! code' = docs b !! code'.
Proof.
  intros Hne. unfold updateDoc. destruct (docs b !! code); simpl; [| done].
  by rewrite lookup_insert_ne.
Qed.

Lemma handleJoinRoom_dom u st :
  dom (docs (backend (handleJoinRoom u st))) = dom (docs (backend st)).
Proof.
  unfold handleJoinRoom. destruct (negb _); [done |]. simpl.
  destruct (docs (backend st) !! _) as [snap |] eqn:E; [| done].
  unfold updateDoc. simpl. rewrite E. simpl.
  by apply dom_insert_lookup_L.
Qed.

Lemma handleLeaveRoom_other u st code' :
  code' <> roomCode (comp st) ->
  docs (backend (handleLeaveRoom u st)) !! code' = docs (backend st) !! code'.
Proof.
  intros Hne.
  destruct (decide (roomCode (comp st) = "")) as [E | Hcode].
  { unfold handleLeaveRoom. by rewrite E. }
  destruct (sessionData (comp st)) as [s |] eqn:Es.
  2:{ unfold handleLeaveRoom. rewrite Es. simpl. by rewrite orb_true_r. }
  rewrite (handleLeaveRoom_docs u st s Hcode Es). simpl.
  destruct (filter _ (participants s)); [by rewrite lookup_delete_ne |].
  destruct (docs (backend st) !! roomCode (comp st)); [| done].
  destruct (String.eqb _ _); by rewrite lookup_insert_ne.
Qed.

End RoomSet.

(** Joining, chatting and generating notes never create a session and never
    delete one: the set of room codes under which a session is stored is
    the same after the handler as before, for every input. *)
Theorem handlers_keep_room_set (u : User) (st : St) :
  dom (docs (backend (handleJoinRoom u st))) = dom (docs (backend st))
  /\ (forall uuid now,
        dom (docs (backend (handleSendChatMessage u uuid now st)))
        = dom (docs (backend st)))
  /\ (forall reply uuid,
        dom (docs (backend (handleGenerateNotes u reply uuid st)))
        = dom (docs (backend st))).
Proof.
  split; [apply handleJoinRoom_dom |]. split.
  - intros uuid now. unfold handleSendChatMessage.
    destruct (negb _ || negb _); [done |].
    pose proof (updateDoc_dom (roomCode (comp st))
      (fun cur => set_chatMessages
         (arrayUnion GroupChatMessage_eqb (chatMessages cur)
            (mkChat uuid (user_uid u) (orElse (displayName u) "Anonymous")
               (chatInput (comp st)) now)) cur) (backend st)) as H.
    rewrite <- H. clear H. destruct (updateDoc _ _ _) as [ok b']. by destruct ok.
  - intros reply uuid. unfold handleGenerateNotes.
    destruct (negb _); [done |].
    destruct reply as [| [| j]]; simpl; try done.
    destruct (get_notes j) as [| v]; simpl; try done.
    destruct (negb _); simpl; try done.
    unfold updateDocUnion. destruct (writable _ _); [| done].
    match goal with
    | |- context [updateDoc ?c ?f ?b] => pose proof (updateDoc_dom c f b) as H
    end.
    rewrite <- H. clear H. destruct (updateDoc _ _ _) as [ok b']. by destruct ok.
Qed.

(** Leaving touches the session of the component's own room only: the
    document under any other code is the same after as before. *)
Theorem handleLeaveRoom_other_rooms (u : User) (st : St) (code' : string) :
  code' <> roomCode (comp st) ->
  docs (backend (handleLeaveRoom u st)) !! code' = docs (backend st) !! code'.
Proof. apply handleLeaveRoom_other. Qed.

(** ** Leaving: the remaining cases *)

(** A guest who leaves a room in which others remain is taken off the
    roster, the others keeping their order, and loses the permissions
    entry; host, chat, notes and everyone else's permissions stay. *)
Theorem handleLeaveRoom_guest (u : User) (st : St) (s : SessionDoc) :
  roomCode (comp st) <> "" ->
  sessionData (comp st) = Some s ->
  docs (backend st) !! roomCode (comp st) = Some s ->
  user_uid u <> hostId s ->
  filter (fun p => uid p <> user_uid u) (participants s) <> [] ->
  docs (backend (handleLeaveRoom u st)) !! roomCode (comp st)
  = Some (mkSession (hostId s)
            (filter (fun p => uid p <> user_uid u) (participants s))
            (chatMessages s) (sharedNotes s) (sharedFlashcards s) (quizState s)
            (delete (user_uid u) (permissions s)) (createdAt s)).
Proof.
  intros Hcode Hs Hd Hhost Hrest.
  rewrite (handleLeaveRoom_docs u st s Hcode Hs). simpl.
  destruct (filter _ (participants s)) as [| p0 rest] eqn:Ef; [done |].
  rewrite Hd. apply String.eqb_neq in Hhost. rewrite Hhost.
  by rewrite lookup_insert_eq.
Qed.

(** When the host leaves a room in which others remain, the first of the
    remaining participants in join order becomes host and may share; the
    others keep their order; chat and notes stay, and so does the
    permissions entry of everyone but the old and the new host. *)
Theorem handleLeaveRoom_host_transfer (u : User) (st : St) (s : SessionDoc)
    (p0 : Participant) (rest : list Participant) :
  roomCode (comp st) <> "" ->
  sessionData (comp st) = Some s ->
  docs (backend st) !! roomCode (comp st) = Some s ->
  user_uid u = hostId s ->
  filter (fun p => uid p <> user_uid u) (participants s) = p0 :: rest ->
  exists d,
    docs (backend (handleLeaveRoom u st)) !! roomCode (comp st) = Some d
    /\ hostId d = uid p0
    /\ participants d = p0 :: rest
    /\ permissions d !! uid p0 = Some (mkPermission true)
    /\ (forall k, k <> uid p0 -> k <> user_uid u ->
          permissions d !! k = permissions s !! k)
    /\ chatMessages d = chatMessages s /\ sharedNotes d = sharedNotes s.
Proof.
  intros Hcode Hs Hd Hhost Hf.
  rewrite (handleLeaveRoom_docs u st s Hcode Hs). simpl.
  rewrite Hf, Hd, Hhost, String.eqb_refl.
  eexists. split; [apply lookup_insert_eq |]. simpl.
  repeat split; [apply lookup_insert_eq |].
  intros k Hk _. by rewrite lookup_insert_ne.
Qed.

(** Leaving a room whose session is already gone does not bring it back:
    no document is stored under the code afterwards, and the documents are
    the same as before. *)
Theorem handleLeaveRoom_session_gone (u : User) (st : St) :
  docs (backend st) !! roomCode (comp st) = None ->
  docs (backend (handleLeaveRoom u st)) = docs (backend st).
Proof.
  intros Hd.
  destruct (decide (roomCode (comp st) = "")) as [E | Hcode].
  { unfold handleLeaveRoom. by rewrite E. }
  destruct (sessionData (comp st)) as [s |] eqn:Es.
  2:{ unfold handleLeaveRoom. rewrite Es. simpl. by rewrite orb_true_r. }
  rewrite (handleLeaveRoom_docs u st s Hcode Es). simpl. rewrite Hd.
  destruct (filter _ (participants s)); [| done].
  by apply delete_id.
Qed.

(** A component in a room with a snapshot always ends in the lobby, and it
    cancels its listener before it makes its one call on the store, which
    is an update or a delete of its own room's document. *)
Theorem handleLeaveRoom_unsubscribes_first (u : User) (st : St) (s : SessionDoc)
    (heard : string) :
  roomCode (comp st) <> "" ->
  sessionData (comp st) = Some s ->
  unsubscribeRef (comp st) = Some heard ->
  let st' := handleLeaveRoom u st in
  roomCode (comp st') = "" /\ inputRoomCode (comp st') = ""
  /\ sessionData (comp st') = None /\ unsubscribeRef (comp st') = None
  /\ listeners (comp st') = cancel heard (listeners (comp st))
  /\ exists write,
       calls (backend st') = calls (backend st) ++ [CallUnsubscribe heard; write]
       /\ (write = CallUpdateDoc (roomCode (comp st))
           \/ write = CallBatchDelete (roomCode (comp st))).
Proof.
  intros Hcode Hs Hun. simpl. unfold handleLeaveRoom.
  rewrite Hs, (truthy_ne _ Hcode), Hun. simpl.
  repeat split.
  destruct (isHost u (comp st) && _) eqn:Eh.
  - destruct (head _) as [p0 |] eqn:Ehd.
    + exists (CallUpdateDoc (roomCode (comp st))). split; [| by left].
      unfold updateDoc. destruct (docs _ !! _); simpl; by rewrite <- app_assoc.
    + apply andb_true_iff in Eh as [_ Eh]. apply Z.ltb_lt in Eh.
      destruct (filter _ _); [simpl in Eh; lia | discriminate].
  - destruct (_ =? 0).
    + exists (CallBatchDelete (roomCode (comp st))). split; [| by right].
      simpl. by rewrite <- app_assoc.
    + exists (CallUpdateDoc (roomCode (comp st))). split; [| by left].
      unfold updateDoc. destruct (docs _ !! _); simpl; by rewrite <- app_assoc.
Qed.

(** ** The key space of room codes *)

Lemma room_code_table_complete :
  forallb (fun t => bool_decide (room_code_table !! roomCodeOf t.1.1 t.1.2 t.2 = Some t))
    room_code_choices = true.
Proof. vm_compute. reflexivity. Qed.

Lemma room_code_table_lookup i j n :
  0 <= i < 6 -> 0 <= j < 6 -> 0 <= n < 90 ->
  room_code_table !! roomCodeOf i j n = Some (i, j, n).
Proof.
  intros Hi Hj Hn. pose proof room_code_table_complete as T.
  rewrite forallb_forall in T.
  eapply bool_decide_eq_true_1, (T (i, j, n)), list_elem_of_In.
  unfold room_code_choices.
  apply list_elem_of_bind. exists i. split; [| apply elem_of_seqZ; lia].
  apply list_elem_of_bind. exists j. split; [| apply elem_of_seqZ; lia].
  apply list_elem_of_bind. exists n. split; [| apply elem_of_seqZ; lia].
  by left.
Qed.

Lemma roomCodeOf_injective i j n i' j' n' :
  0 <= i < 6 -> 0 <= j < 6 -> 0 <= n < 90 ->
  0 <= i' < 6 -> 0 <= j' < 6 -> 0 <= n' < 90 ->
  roomCodeOf i j n = roomCodeOf i' j' n' ->
  i = i' /\ j = j' /\ n = n'.
Proof.
  intros Hi Hj Hn Hi' Hj' Hn' E.
  pose proof (room_code_table_lookup i j n Hi Hj Hn) as L.
  pose proof (room_code_table_lookup i' j' n' Hi' Hj' Hn') as L'.
  rewrite E in L. rewrite L' in L. clear -L.
  assert (H : (i', j', n') = (i, j, n)) by congruence.
  inversion H; subst. auto.
Qed.

(** A room code determines the choices it was built from: two triples of
    draws give the same code only if they pick the same first word, the
    same second word and the same number. *)
Theorem generateRoomCode_injective (r1 r2 r3 q1 q2 q3 : Js.double) :
  Js.in_unit_interval r1 -> Js.in_unit_interval r2 -> Js.in_unit_interval r3 ->
  Js.in_unit_interval q1 -> Js.in_unit_interval q2 -> Js.in_unit_interval q3 ->
  generateRoomCode r1 r2 r3 = generateRoomCode q1 q2 q3 ->
  Js.Math_floor (Js.mul_int r1 6) = Js.Math_floor (Js.mul_int q1 6)
  /\ Js.Math_floor (Js.mul_int r2 6) = Js.Math_floor (Js.mul_int q2 6)
  /\ Js.Math_floor (Js.mul_int r3 90) = Js.Math_floor (Js.mul_int q3 90).
Proof.
  intros R1 R2 R3 Q1 Q2 Q3 E. unfold generateRoomCode in E.
  apply roomCodeOf_injective in E.
  - exact E.
  - apply (floor_mul_int_bound r1 6 R1). lia.
  - apply (floor_mul_int_bound r2 6 R2). lia.
  - apply (floor_mul_int_bound r3 90 R3). lia.
  - apply (floor_mul_int_bound q1 6 Q1). lia.
  - apply (floor_mul_int_bound q2 6 Q2). lia.
  - apply (floor_mul_int_bound q3 90 Q3). lia.
Qed.

(** ** What holds in every reachable world *)

Section Reachable.

Lemma handleLeaveRoom_subset u st code :
  is_Some (docs (backend (handleLeaveRoom u st)) !! code) ->
  is_Some (docs (backend st) !! code).
Proof.
  destruct (decide (code = roomCode (comp st))) as [-> | Hne].
  2:{ by rewrite handleLeaveRoom_other. }
  destruct (decide (roomCode (comp st) = "")) as [E | Hcode].
  { unfold handleLeaveRoom. by rewrite E. }
  destruct (sessionData (comp st)) as [s |] eqn:Es.
  2:{ unfold handleLeaveRoom. rewrite Es. simpl. by rewrite orb_true_r. }
  rewrite (handleLeaveRoom_docs u st s Hcode Es). simpl.
  destruct (filter _ (participants s)).
  - rewrite lookup_delete_eq. by intros [? ?].
  - destruct (docs (backend st) !! roomCode (comp st)) eqn:Ed;
      [intros _; by eexists | by rewrite Ed].
Qed.

(** A press of a button stores a session under a new code only if it is
    "Create Room", and then under the code it drew. *)
Lemma perform_new_code u a st code :
  is_Some (docs (backend (perform u a st)) !! code) ->
  is_Some (docs (backend st) !! code)
  \/ exists r1 r2 r3 now,
       a = Create r1 r2 r3 now /\ code = generateRoomCode r1 r2 r3.
Proof.
  destruct a as [r1 r2 r3 now | typed | |]; unfold perform; simpl.
  - destruct (negb _); [| by left]. simpl.
    intros H. apply lookup_insert_is_Some in H as [<- | [_ H]]; [right | by left].
    by exists r1, r2, r3, now.
  - destruct (negb _); [| by left].
    intros H. left. apply elem_of_dom. apply elem_of_dom in H.
    by rewrite handleJoinRoom_dom in H.
  - destruct (negb _); [by left |]. intros H. left.
    by apply handleLeaveRoom_subset in H.
  - unfold remount. destruct (unsubscribeRef (comp st)); by left.
Qed.

Lemma run_snoc trace ia w : run (trace ++ [ia]) w = act ia.1 ia.2 (run trace w).
Proof. unfold run. by rewrite fold_left_app. Qed.

End Reachable.



(** When every "Create Room" press draws its three numbers from [0, 1),
    every code under which a session is stored has the format
    [^[A-Z]+-[A-Z]+-\d{2}$], in every world reached from the start. *)
Theorem reachable_codes_well_formed (users : list User) (trace : list (nat * Action))
    (code : string) :
  Forall (fun ia => draws_valid ia.2) trace ->
  is_Some (docs (store (run trace (boot users))) !! code) ->
  Regex.matches Regex.room_code_format code = true.
Proof.
  revert code. induction trace as [| [k a] trace IH] using rev_ind; intros code Hv Hd.
  - simpl in Hd. rewrite lookup_empty in Hd. by destruct Hd.
  - apply Forall_app in Hv as [Hv Hia]. apply Forall_inv in Hia.
    simpl in Hia. rewrite run_snoc in Hd. simpl in Hd. unfold act in Hd.
    destruct (clients (run trace (boot users)) !! k) as [cl |]; [| by apply IH].
    simpl in Hd. apply perform_new_code in Hd as [Hd | (r1 & r2 & r3 & now & -> & ->)].
    + by apply IH.
    + simpl in Hia. destruct Hia as (R1 & R2 & R3).
      unfold generateRoomCode. apply roomCodeOf_ok.
      * apply (floor_mul_int_bound r1 6 R1). lia.
      * apply (floor_mul_int_bound r2 6 R2). lia.
      * apply (floor_mul_int_bound r3 90 R3). lia.
Qed.

(** ** Entering and leaving, composed *)

(** A component in the lobby that creates a room ends in that room, holding
    the snapshot of the new session, in which its user is the only
    participant, the host, and allowed to share. *)
Theorem create_enters_as_host (w : World) (i : nat) (cl : Client)
    (r1 r2 r3 : Js.double) (now : Z) :
  clients w !! i = Some cl ->
  roomCode (ui cl) = "" ->
  listeners (ui cl) = [] ->
  exists c',
    clients (act i (Create r1 r2 r3 now) w) !! i = Some (mkClient (who cl) c')
    /\ roomCode c' = generateRoomCode r1 r2 r3
    /\ listeners c' = [generateRoomCode r1 r2 r3]
    /\ sessionData c' = Some (initialSessionData (who cl) now)
    /\ view_participants c' = [newParticipant (who cl)]
    /\ isHost (who cl) c' = true
    /\ myPermissions (who cl) c' = mkPermission true.
Proof.
  intros Hi Hlobby Hls.
  destruct (act_acting i (Create r1 r2 r3 now) w cl Hi) as [_ Hcl].
  simpl in Hcl. rewrite Hlobby in Hcl. simpl in Hcl.
  unfold deliver in Hcl. simpl in Hcl. rewrite Hls in Hcl. simpl in Hcl.
  unfold onSnapshotCallback in Hcl. rewrite lookup_insert_eq in Hcl.
  eexists. split; [exact Hcl |]. simpl.
  unfold isHost, myPermissions, view_hostId, view_permissions. simpl.
  rewrite String.eqb_refl, lookup_singleton_eq. done.
Qed.

(** Joining a room and leaving it again puts the store back as it was, for
    a user who is new to the room: not its host, on its roster under no
    name, and without a permissions entry. *)
Theorem join_then_leave_restores (w : World) (i : nat) (cl : Client) (typed code : string)
    (d : SessionDoc) :
  clients w !! i = Some cl ->
  roomCode (ui cl) = "" ->
  listeners (ui cl) = [] ->
  Js.toUpperCase (Js.trim (Js.toUpperCase typed)) = code ->
  code <> "" ->
  docs (store w) !! code = Some d ->
  participants d <> [] ->
  user_uid (who cl) <> hostId d ->
  (forall p, p ∈ participants d -> uid p <> user_uid (who cl)) ->
  permissions d !! user_uid (who cl) = None ->
  docs (store (run [(i, Join typed); (i, Leave)] w)) = docs (store w).
Proof.
  intros Hi Hlobby Hls Hcode Hne Hd Hps Hhost Hnew Hperm. simpl.
  assert (Hout : newParticipant (who cl) ∉ participants d).
  { intros Hin. by apply (Hnew _ Hin). }
  destruct (act_acting i (Join typed) w cl Hi) as [Hstore Hcl].
  simpl in Hstore, Hcl. rewrite Hlobby in Hstore, Hcl. simpl in Hstore, Hcl.
  set (w1 := act i (Join typed) w) in *.
  rewrite (handleJoinRoom_new_member (who cl)
             (mkSt (store w) (setInputRoomCode (Js.toUpperCase typed) (ui cl)))
             code d Hcode Hne Hd Hout) in Hstore, Hcl.
  simpl in Hcl. unfold deliver in Hcl. simpl in Hcl. rewrite Hls in Hcl.
  simpl in Hcl. unfold onSnapshotCallback in Hcl. rewrite lookup_insert_eq in Hcl.
  destruct (act_acting i Leave w1 _ Hcl) as [Hstore2 _].
  rewrite Hstore2, Hstore. simpl. rewrite (truthy_ne _ Hne). simpl.
  match goal with
  | |- docs (backend (handleLeaveRoom ?u ?st)) = _ =>
      rewrite (handleLeaveRoom_docs u st _ Hne eq_refl)
  end. simpl.
  rewrite filter_app, filter_cons_False, filter_nil, app_nil_r
    by (intros X; by apply X).
  assert (Hf : filter (fun p => uid p <> user_uid (who cl)) (participants d) = participants d).
  { clear -Hnew. induction (participants d) as [| p ps IH]; [done |].
    rewrite filter_cons_True by (apply Hnew; by left).
    f_equal. apply IH. intros q Hq. apply Hnew. by right. }
  rewrite Hf. destruct (participants d) as [| p0 rest] eqn:Eps; [done |].
  rewrite lookup_insert_eq.
  apply String.eqb_neq in Hhost. rewrite Hhost.
  rewrite insert_insert_eq. unfold removeSelfFields. simpl.
  rewrite delete_insert_id by done.
  apply insert_id. rewrite Hd. f_equal. destruct d. simpl in *. by subst.
Qed.

(** ** The further statements at sample inputs *)

Lemma handleJoinRoom_blank_code_witness :
  handleJoinRoom alice (mkSt (store room_of_two) (setInputRoomCode "   " initialComponent))
  = mkSt (store room_of_two)
         (setError (Some "Please enter a room code.")
            (setInputRoomCode "   " initialComponent)).
Proof.
  apply (handleJoinRoom_blank_code alice
           (mkSt (store room_of_two) (setInputRoomCode "   " initialComponent))).
  reflexivity.
Defined.

Lemma handleJoinRoom_room_not_found_witness :
  handleJoinRoom carol (mkSt (store room_of_two) (setInputRoomCode "lazy-cup-11" initialComponent))
  = mkSt (called (CallGetDoc "LAZY-CUP-11") (store room_of_two))
         (setError (Some "Room not found.") (setInputRoomCode "lazy-cup-11" initialComponent)).
Proof.
  apply (handleJoinRoom_room_not_found carol
           (mkSt (store room_of_two) (setInputRoomCode "lazy-cup-11" initialComponent))
           "LAZY-CUP-11").
  - reflexivity.
  - reflexivity.
  - vm_compute. reflexivity.
Defined.

Lemma handleJoinRoom_new_member_witness :
  docs (backend (handleJoinRoom carol carol_at_door)) !! "HAPPY-FOX-10"
  = Some (mkSession "alice"
            [newParticipant alice; newParticipant bob; newParticipant carol]
            [] [] [] None
            {[ "alice" := mkPermission true; "bob" := mkPermission false;
               "carol" := mkPermission false ]} 1000).
Proof.
  rewrite (handleJoinRoom_new_member carol carol_at_door "HAPPY-FOX-10"
             (snapshotOf (stAt 0 room_of_two))).
  - vm_compute. reflexivity.
  - reflexivity.
  - discriminate.
  - vm_compute. reflexivity.
  - intros H. vm_compute in H.
    apply elem_of_cons in H as [H | H]; [discriminate |].
    apply list_elem_of_singleton in H. discriminate.
Defined.

Lemma handleSendChatMessage_nothing_to_send_witness :
  handleSendChatMessage bob "uuid-1" 2000 (stAt 1 room_of_two) = stAt 1 room_of_two.
Proof.
  apply (handleSendChatMessage_nothing_to_send bob "uuid-1" 2000 (stAt 1 room_of_two)).
  left. reflexivity.
Defined.

Lemma handleSendChatMessage_appends_witness :
  (chatMessages <$> docs (backend (handleSendChatMessage bob "uuid-1" 2000 bob_with_chat))
                      !! "HAPPY-FOX-10")
  = Some [mkChat "uuid-1" "bob" "Bob" " hello " 2000]
  /\ chatInput (comp (handleSendChatMessage bob "uuid-1" 2000 bob_with_chat)) = "".
Proof.
  rewrite (handleSendChatMessage_appends bob "uuid-1" 2000 bob_with_chat
             (snapshotOf (stAt 1 room_of_two))).
  - split; [vm_compute |]; reflexivity.
  - vm_compute. discriminate.
  - vm_compute. discriminate.
  - vm_compute. reflexivity.
Defined.

Lemma handleSendChatMessage_room_gone_witness :
  docs (backend (handleSendChatMessage bob "uuid-1" 2000
                   (mkSt (mkBackend ∅ []) (comp bob_with_chat)))) = ∅
  /\ comp (handleSendChatMessage bob "uuid-1" 2000
             (mkSt (mkBackend ∅ []) (comp bob_with_chat)))
     = comp bob_with_chat.
Proof.
  apply (handleSendChatMessage_room_gone bob "uuid-1" 2000
           (mkSt (mkBackend ∅ []) (comp bob_with_chat))).
  reflexivity.
Defined.

Lemma handleSendChatMessage_append_only_witness :
  exists d',
    docs (backend (handleSendChatMessage bob "uuid-1" 2000 bob_with_chat))
      !! "HAPPY-FOX-10" = Some d'
    /\ chatMessages (snapshotOf (stAt 1 room_of_two)) `prefix_of` chatMessages d'
    /\ (length (chatMessages d')
        <= S (length (chatMessages (snapshotOf (stAt 1 room_of_two)))))%nat
    /\ same_but_chat (snapshotOf (stAt 1 room_of_two)) d'.
Proof.
  apply (handleSendChatMessage_append_only bob "uuid-1" 2000 bob_with_chat
           "HAPPY-FOX-10" (snapshotOf (stAt 1 room_of_two))).
  vm_compute. reflexivity.
Defined.

Lemma handleGenerateNotes_blank_input_witness :
  handleGenerateNotes bob RequestFailed "uuid-1" (stAt 1 room_of_two) = stAt 1 room_of_two.
Proof.
  apply (handleGenerateNotes_blank_input bob RequestFailed "uuid-1" (stAt 1 room_of_two)).
  reflexivity.
Defined.


Lemma handleGenerateNotes_append_only_witness :
  exists d',
    docs (backend (handleGenerateNotes bob (ReplyText (Returned (JObj []))) "uuid-1"
                     bob_with_notes)) !! "HAPPY-FOX-10" = Some d'
    /\ sharedNotes (snapshotOf (stAt 1 room_of_two)) `prefix_of` sharedNotes d'
    /\ (length (sharedNotes d')
        <= S (length (sharedNotes (snapshotOf (stAt 1 room_of_two)))))%nat
    /\ same_but_notes (snapshotOf (stAt 1 room_of_two)) d'.
Proof.
  apply (handleGenerateNotes_append_only bob (ReplyText (Returned (JObj []))) "uuid-1"
           bob_with_notes "HAPPY-FOX-10" (snapshotOf (stAt 1 room_of_two))).
  vm_compute. reflexivity.
Defined.

Lemma handleLeaveRoom_other_rooms_witness :
  docs (backend (handleLeaveRoom bob (stAt 1 room_of_two))) !! "LAZY-CUP-11"
  = docs (backend (stAt 1 room_of_two)) !! "LAZY-CUP-11".
Proof.
  apply (handleLeaveRoom_other_rooms bob (stAt 1 room_of_two) "LAZY-CUP-11").
  vm_compute. discriminate.
Defined.

Lemma handleLeaveRoom_guest_witness :
  docs (backend (handleLeaveRoom bob (stAt 1 room_of_three))) !! "HAPPY-RIVER-55"
  = Some (mkSession "alice" [newParticipant alice; newParticipant carol] [] [] [] None
            {[ "alice" := mkPermission true; "carol" := mkPermission false ]} 1000).
Proof.
  change "HAPPY-RIVER-55" with (roomCode (comp (stAt 1 room_of_three))).
  rewrite (handleLeaveRoom_guest bob (stAt 1 room_of_three)
             (snapshotOf (stAt 1 room_of_three))).
  - vm_compute. reflexivity.
  - vm_compute. discriminate.
  - vm_compute. reflexivity.
  - vm_compute. reflexivity.
  - discriminate.
  - vm_compute. discriminate.
Defined.

Lemma handleLeaveRoom_host_transfer_witness :
  exists d,
    docs (backend (handleLeaveRoom alice (stAt 0 room_of_two)))
      !! roomCode (comp (stAt 0 room_of_two)) = Some d
    /\ hostId d = "bob"
    /\ participants d = [newParticipant bob]
    /\ permissions d !! "bob" = Some (mkPermission true)
    /\ (forall k, k <> "bob" -> k <> "alice" ->
          permissions d !! k = permissions (snapshotOf (stAt 0 room_of_two)) !! k)
    /\ chatMessages d = chatMessages (snapshotOf (stAt 0 room_of_two))
    /\ sharedNotes d = sharedNotes (snapshotOf (stAt 0 room_of_two)).
Proof.
  apply (handleLeaveRoom_host_transfer alice (stAt 0 room_of_two)
           (snapshotOf (stAt 0 room_of_two)) (newParticipant bob) []).
  - vm_compute. discriminate.
  - vm_compute. reflexivity.
  - vm_compute. reflexivity.
  - reflexivity.
  - vm_compute. reflexivity.
Defined.

Lemma handleLeaveRoom_session_gone_witness :
  docs (backend (handleLeaveRoom bob (mkSt (mkBackend ∅ []) (comp (stAt 1 room_of_two))))) = ∅.
Proof.
  apply (handleLeaveRoom_session_gone bob
           (mkSt (mkBackend ∅ []) (comp (stAt 1 room_of_two)))).
  reflexivity.
Defined.

Lemma handleLeaveRoom_unsubscribes_first_witness :
  let st := stAt 1 room_of_two in
  let st' := handleLeaveRoom bob st in
  roomCode (comp st') = "" /\ inputRoomCode (comp st') = ""
  /\ sessionData (comp st') = None /\ unsubscribeRef (comp st') = None
  /\ listeners (comp st') = cancel "HAPPY-FOX-10" (listeners (comp st))
  /\ exists write,
       calls (backend st') = calls (backend st) ++ [CallUnsubscribe "HAPPY-FOX-10"; write]
       /\ (write = CallUpdateDoc (roomCode (comp st))
           \/ write = CallBatchDelete (roomCode (comp st))).
Proof.
  apply (handleLeaveRoom_unsubscribes_first bob (stAt 1 room_of_two)
           (snapshotOf (stAt 1 room_of_two)) "HAPPY-FOX-10").
  - vm_compute. discriminate.
  - vm_compute. reflexivity.
  - vm_compute. reflexivity.
Defined.

Lemma generateRoomCode_injective_witness :
  Js.Math_floor (Js.mul_int draw_zero 6) = Js.Math_floor (Js.mul_int (Js.Double 1 (-3)) 6)
  /\ Js.Math_floor (Js.mul_int draw_half 6) = Js.Math_floor (Js.mul_int draw_half 6)
  /\ Js.Math_floor (Js.mul_int draw_half 90) = Js.Math_floor (Js.mul_int draw_half 90).
Proof.
  apply (generateRoomCode_injective draw_zero draw_half draw_half
           (Js.Double 1 (-3)) draw_half draw_half);
    try (unfold Js.in_unit_interval; simpl; lia).
  vm_compute. reflexivity.
Defined.



Lemma reachable_codes_well_formed_witness :
  Regex.matches Regex.room_code_format "HAPPY-FOX-10" = true.
Proof.
  apply (reachable_codes_well_formed [alice; bob]
           [(0%nat, Create draw_zero draw_zero draw_zero 1000);
            (1%nat, Join "happy-fox-10")]
           "HAPPY-FOX-10").
  - repeat constructor; unfold Js.in_unit_interval; simpl; lia.
  - vm_compute. eexists. reflexivity.
Defined.

Lemma create_enters_as_host_witness :
  exists c',
    clients (act 0 (Create draw_zero draw_zero draw_zero 1000) (boot [alice])) !! 0%nat
    = Some (mkClient alice c')
    /\ roomCode c' = generateRoomCode draw_zero draw_zero draw_zero
    /\ listeners c' = [generateRoomCode draw_zero draw_zero draw_zero]
    /\ sessionData c' = Some (initialSessionData alice 1000)
    /\ view_participants c' = [newParticipant alice]
    /\ isHost alice c' = true
    /\ myPermissions alice c' = mkPermission true.
Proof.
  apply (create_enters_as_host (boot [alice]) 0%nat (mkClient alice initialComponent)
           draw_zero draw_zero draw_zero 1000); reflexivity.
Defined.

Lemma join_then_leave_restores_witness :
  let w := run [(0%nat, Create draw_zero draw_zero draw_zero 1000)] (boot [alice; bob]) in
  docs (store (run [(1%nat, Join "happy-fox-10"); (1%nat, Leave)] w)) = docs (store w).
Proof.
  apply (join_then_leave_restores
           (run [(0%nat, Create draw_zero draw_zero draw_zero 1000)] (boot [alice; bob]))
           1%nat (mkClient bob initialComponent) "happy-fox-10" "HAPPY-FOX-10"
           (initialSessionData alice 1000)).
  - vm_compute. reflexivity.
  - reflexivity.
  - reflexivity.
  - reflexivity.
  - discriminate.
  - vm_compute. reflexivity.
  - discriminate.
  - discriminate.
  - intros p Hp. apply list_elem_of_singleton in Hp. subst p. discriminate.
  - vm_compute. reflexivity.
Defined.

(** ** Joining: what it leaves alone *)

(** Whatever is typed, joining removes no one and moves no one: every
    stored session keeps its roster in order at the front of the new one,
    gains at most one entry, and keeps its host, chat, notes and the
    permissions entry of everyone but the caller. *)
Theorem handleJoinRoom_keeps_sessions (u : User) (st : St) (code : string) (d : SessionDoc) :
  docs (backend st) !! code = Some d ->
  exists d',
    docs (backend (handleJoinRoom u st)) !! code = Some d'
    /\ participants d `prefix_of` participants d'
    /\ (length (participants d') <= S (length (participants d)))%nat
    /\ hostId d' = hostId d
    /\ chatMessages d' = chatMessages d /\ sharedNotes d' = sharedNotes d
    /\ forall k, k <> user_uid u -> permissions d' !! k = permissions d !! k.
Proof.
  intros Hd. unfold handleJoinRoom.
  assert (Hsame : exists d', docs (backend st) !! code = Some d'
            /\ participants d `prefix_of` participants d'
            /\ (length (participants d') <= S (length (participants d)))%nat
            /\ hostId d' = hostId d
            /\ chatMessages d' = chatMessages d /\ sharedNotes d' = sharedNotes d
            /\ forall k, k <> user_uid u -> permissions d' !! k = permissions d !! k).
  { exists d. repeat split; [done | done | lia]. }
  destruct (negb _); [done |]. simpl.
  set (target := Js.toUpperCase (Js.trim (inputRoomCode (comp st)))).
  destruct (docs (backend st) !! target) as [snap |] eqn:Es; [| done].
  unfold updateDoc. simpl. rewrite Es. simpl.
  destruct (decide (target = code)) as [E | Hne].
  2:{ by rewrite lookup_insert_ne. }
  rewrite E in Es |- *. rewrite lookup_insert_eq. rewrite Es in Hd. injection Hd as ->.
  eexists. split; [done |]. unfold joinFields. simpl.
  rewrite arrayUnion_participants.
  repeat split.
  - case_decide; [done | by apply prefix_app_r].
  - case_decide; [lia | rewrite length_app; simpl; lia].
  - intros k Hk. by rewrite lookup_insert_ne.
Qed.

Lemma handleJoinRoom_keeps_sessions_witness :
  exists d',
    docs (backend (handleJoinRoom carol carol_at_door)) !! "HAPPY-FOX-10" = Some d'
    /\ participants (snapshotOf (stAt 0 room_of_two)) `prefix_of` participants d'
    /\ (length (participants d')
        <= S (length (participants (snapshotOf (stAt 0 room_of_two)))))%nat
    /\ hostId d' = hostId (snapshotOf (stAt 0 room_of_two))
    /\ chatMessages d' = chatMessages (snapshotOf (stAt 0 room_of_two))
    /\ sharedNotes d' = sharedNotes (snapshotOf (stAt 0 room_of_two))
    /\ forall k, k <> "carol" ->
         permissions d' !! k = permissions (snapshotOf (stAt 0 room_of_two)) !! k.
Proof.
  apply (handleJoinRoom_keeps_sessions carol carol_at_door "HAPPY-FOX-10"
           (snapshotOf (stAt 0 room_of_two))).
  vm_compute. reflexivity.
Defined.
